(** * car-album: browser scripts (like toggle, image modal, ranking loader)

    A shallow embedding of the five scripts of the repository:

      - [static/like.js], first revision   (capturing listener, one button)
      - the posts + comments like handler  (bubbling listener, [postJson])
      - [static/like.js], second revision  (capturing listener, [updateButtons])
      - [static/modal.js]
      - [static/ranking.js]

    The three like scripts are referred to as [Part000], [Part001] and
    [Part002].  JavaScript values are an inductive type, the page is a
    store of elements addressed by index, an [async] handler is split at
    its [await] into the part that runs on the event and the part that
    runs when the request settles, and everything the user can observe
    besides the page (requests, alerts, navigation) is appended to a
    log. *)

From stdpp Require Import base option list sets strings pretty.
From Stdlib Require Import ZArith Lia.

Open Scope string_scope.
Open Scope list_scope.
Set Warnings "-register-all,-clear-no-such-hyp".

(* ===================================================================== *)
(** * JavaScript values *)
(* ===================================================================== *)

(** The integers a JavaScript number holds exactly: magnitude below
    2^53. *)
Definition safe_integer (n : Z) : bool := (Z.abs n <? 9007199254740992)%Z.

(** Values that [JSON.parse] can produce, plus [undefined] (the value of
    a missing property or a missing [data-*] attribute).  A number is a
    safe integer, which is what a like count is; numbers with a fraction
    or beyond 2^53 are not values of this type.  An object is the list
    of its own properties. *)
Inductive jsval : Type :=
  | JUndef
  | JNull
  | JBool (b : bool)
  | JNum (n : Z) (safe : safe_integer n = true)
  | JStr (s : string)
  | JArr (xs : list jsval)
  | JObj (fields : list (string * jsval)).

(** [ToBoolean]: what [if (v)], [!v], [!!v], [v ? a : b] and [v || w] test. *)
Definition truthy (v : jsval) : bool :=
  match v with
  | JUndef | JNull => false
  | JBool b => b
  | JNum n _ => negb (n =? 0)%Z
  | JStr s => negb (String.eqb s "")
  | JArr _ | JObj _ => true
  end.

(** [a || b] *)
Definition js_or (a b : jsval) : jsval := if truthy a then a else b.

Fixpoint assoc (k : string) (fields : list (string * jsval)) : option jsval :=
  match fields with
  | [] => None
  | (k', v) :: rest => if String.eqb k k' then Some v else assoc k rest
  end.

(** [String(v)], the conversion done by a template literal [`${v}`] and
    the conversion [alert(v)] makes of its argument; [None] is the
    [TypeError] of a value that has no string form.  A parsed object
    prints as "[object Object]" through [Object.prototype.toString],
    unless it has a member of its own named [toString]: that member is
    not a function, [valueOf] answers the object itself, and the
    conversion raises.  An array prints its elements separated by
    commas, [null] and [undefined] elements as the empty string, and
    raises when an element does. *)
Fixpoint js_String (v : jsval) : option string :=
  match v with
  | JUndef => Some "undefined"
  | JNull => Some "null"
  | JBool true => Some "true"
  | JBool false => Some "false"
  | JNum n _ => Some (pretty n)
  | JStr s => Some s
  | JArr xs =>
      (fix join (l : list jsval) : option string :=
         match l with
         | [] => Some ""
         | x :: r =>
             match match x with
                   | JUndef | JNull => Some ""
                   | _ => js_String x
                   end with
             | None => None
             | Some sx =>
                 match r with
                 | [] => Some sx
                 | _ :: _ =>
                     match join r with
                     | None => None
                     | Some sr => Some (sx +:+ "," +:+ sr)
                     end
                 end
             end
         end) xs
  | JObj fields =>
      match assoc "toString" fields with
      | Some _ => None
      | None => Some "[object Object]"
      end
  end.

(** The values that have a string form: no object with a [toString]
    member of its own, at any depth of the arrays. *)
Fixpoint convertible (v : jsval) : bool :=
  match v with
  | JArr xs => forallb convertible xs
  | JObj fields =>
      match assoc "toString" fields with Some _ => false | None => true end
  | _ => true
  end.

(** [v.k] for the property names the scripts read ([ok], [liked],
    [likes], [error], [username], [car_name]); none of them is defined
    on a prototype, so a primitive or an array answers [undefined].
    [None] is the [TypeError] raised on [null] and [undefined]. *)
Definition get_prop (v : jsval) (k : string) : option jsval :=
  match v with
  | JUndef | JNull => None
  | JObj fields => Some (default JUndef (assoc k fields))
  | _ => Some JUndef
  end.

(** [v === true] *)
Definition is_true (v : jsval) : bool :=
  match v with JBool true => true | _ => false end.

(** [v === s] for a string literal [s] *)
Definition is_string (s : string) (v : jsval) : bool :=
  match v with JStr s' => String.eqb s' s | _ => false end.

(** [typeof v !== "undefined"] *)
Definition is_defined (v : jsval) : bool :=
  match v with JUndef => false | _ => true end.

(** A [dataset] entry or an attribute read as a JavaScript value. *)
Definition of_attr (a : option string) : jsval :=
  match a with Some s => JStr s | None => JUndef end.

(** [`${a}`] for a [dataset] entry: the string itself. *)
Definition template (a : option string) : string :=
  match a with Some s => s | None => "undefined" end.

(* ===================================================================== *)
(** * Requests *)
(* ===================================================================== *)

(** How [fetch(...)] followed by [res.json()] ends: the [fetch] promise
    rejects, or a response with a status arrives whose body either parses
    as JSON ([Some v]) or makes [res.json()] reject ([None]). *)
Inductive fetch_outcome : Type :=
  | NetworkError
  | Response (status : Z) (body : option jsval).

(** [res.ok]: the status is in the range 200-299. *)
Definition res_ok (status : Z) : bool :=
  ((200 <=? status) && (status <=? 299))%Z.

(** What a script does besides changing the page. *)
Inductive effect : Type :=
  | Fetch (url : string)
  | Alert (msg : jsval)
  | SetLocation (href : string)
  | UnhandledRejection.

(* ===================================================================== *)
(** * classList *)
(* ===================================================================== *)

Definition classList_contains (c : string) (l : list string) : bool :=
  bool_decide (c ∈ l).

Definition classList_add (c : string) (l : list string) : list string :=
  if classList_contains c l then l else l ++ [c].

Definition classList_remove (c : string) (l : list string) : list string :=
  filter (λ x, x ≠ c) l.

(** [classList.toggle(c, force)] *)
Definition classList_toggle (c : string) (force : bool) (l : list string)
  : list string :=
  if force then classList_add c l else classList_remove c l.

(* ===================================================================== *)
(** * modal.js *)
(* ===================================================================== *)

Module Modal.

(** The part of the page the script touches: [#imgModal] (class list and
    [aria-hidden]), [#modalImg] (its [src]) and [document.body] (inline
    [overflow]). *)
Record state : Type := {
  modal_classList : list string;
  modal_aria_hidden : option string;
  modalImg_src : string;
  body_overflow : string;
}.

Record image : Type := {
  img_data_full : option string;   (* img.dataset.full *)
  img_src : string;                (* img.src *)
}.

(** A click, as the listener sees it: the results of
    [e.target.closest("img.post-image")] and
    [e.target.closest("[data-close='1']")]. *)
Record click : Type := {
  closest_post_image : option image;
  closest_data_close : bool;
}.

Definition is_open (m : state) : bool :=
  classList_contains "open" (modal_classList m).

(** A source without a string form makes the first assignment raise,
    before anything is written. *)
Definition openModal (src : jsval) (m : state) : state :=
  if negb (truthy src) then m
  else match js_String src with
       | None => m
       | Some url =>
           {| modal_classList := classList_add "open" (modal_classList m);
              modal_aria_hidden := Some "false";
              modalImg_src := url;
              body_overflow := "hidden" |}
       end.

Definition closeModal (m : state) : state :=
  {| modal_classList := classList_remove "open" (modal_classList m);
     modal_aria_hidden := Some "true";
     modalImg_src := "";
     body_overflow := "" |}.

Definition on_click (e : click) (m : state) : state :=
  match closest_post_image e with
  | Some img => openModal (js_or (of_attr (img_data_full img)) (JStr (img_src img))) m
  | None => if closest_data_close e then closeModal m else m
  end.

Definition on_keydown (key : string) (m : state) : state :=
  if String.eqb key "Escape" && is_open m then closeModal m else m.

(** The source a click on [img] resolves to when the full-resolution
    attribute is used whenever it is present. *)
Definition source_if_present (img : image) : string :=
  match img_data_full img with
  | Some full => full
  | None => img_src img
  end.

(** The same, with an empty attribute treated like a missing one. *)
Definition source_if_nonempty (img : image) : string :=
  match img_data_full img with
  | Some full => if decide (full = "") then img_src img else full
  | None => img_src img
  end.

(** The modal showing [src]. *)
Definition shows (src : string) (m : state) : Prop :=
  is_open m = true ∧ modal_aria_hidden m = Some "false" ∧
  modalImg_src m = src ∧ body_overflow m = "hidden".

(** The modal after a close. *)
Definition hidden (m : state) : Prop :=
  is_open m = false ∧ modal_aria_hidden m = Some "true" ∧
  modalImg_src m = "" ∧ body_overflow m = "".

(** What a click on [img] does to the closed modal [m] if the source
    is [resolve img]: open on that source, or no change when it is
    empty. *)
Definition opens_from (resolve : image → string) (img : image) (m : state)
  : Prop :=
  let m' := on_click {| closest_post_image := Some img;
                        closest_data_close := false |} m in
  (resolve img ≠ "" → shows (resolve img) m') ∧
  (resolve img = "" → m' = m).

(** The closed modal of a freshly loaded page. *)
Definition closed_modal : state :=
  {| modal_classList := ["modal"]; modal_aria_hidden := Some "true";
     modalImg_src := ""; body_overflow := "" |}.

(** An open modal showing an image. *)
Definition open_modal : state :=
  {| modal_classList := ["modal"; "open"]; modal_aria_hidden := Some "false";
     modalImg_src := "/img/full/9.jpg"; body_overflow := "hidden" |}.

End Modal.

(* ===================================================================== *)
(** * ranking.js *)
(* ===================================================================== *)

Module Ranking.

Definition dq : string := String (Ascii.ascii_of_nat 34) EmptyString.
Definition nl : string := String (Ascii.ascii_of_nat 10) EmptyString.

(** A child element of a rendered item, as the page holds it: its class
    and its text content. *)
Record child : Type := {
  child_class : string;
  child_text : string;
}.

(** [el.innerHTML = markup]: the child elements the browser's HTML
    parser leaves in [el].  What the parser makes of text that holds
    markup or character references is the browser's affair; for text
    without them see [parser_exact]. *)
Class HtmlParser : Type :=
  innerHTML_children : string → list child.

(** A rendered [<li>]. *)
Record li : Type := {
  li_classList : list string;
  li_children : list child;
}.

(** The part of the page the script touches: the value of
    [#ranking-period] and the children of [#ranking-list]. *)
Record ranking_page : Type := {
  period_value : string;
  ranking_list : list li;
}.

(** The body of the [forEach] callback; [None] when reading a property
    of the item raises, or when a value of the template has no string
    form. *)
Definition render_item `{HtmlParser} (index : nat) (item : jsval) : option li :=
  username ← get_prop item "username" ≫= js_String;
  car_name ← get_prop item "car_name" ≫= js_String;
  likes ← get_prop item "likes" ≫= js_String;
  Some {|
    li_classList :=
      (if decide (index = 0) then classList_add "rank-1" else id)
        ["ranking-item"];
    li_children :=
      innerHTML_children
        (nl +:+
         "      <span class=" +:+ dq +:+ "rank-no" +:+ dq +:+ ">"
           +:+ pretty (index + 1) +:+ "</span>" +:+ nl +:+
         "      <span class=" +:+ dq +:+ "rank-name" +:+ dq +:+ ">"
           +:+ username +:+ " / " +:+ car_name
           +:+ "</span>" +:+ nl +:+
         "      <span class=" +:+ dq +:+ "rank-like" +:+ dq +:+ ">❤️ "
           +:+ likes +:+ "</span>" +:+ nl +:+
         "    ")
  |}.

(** [data.forEach(...)] from [index] on, appending to the children
    of [#ranking-list]; the boolean tells whether the loop ran to its
    end. *)
Fixpoint forEach `{HtmlParser} (index : nat) (items : list jsval)
    (children : list li) : list li * bool :=
  match items with
  | [] => (children, true)
  | item :: rest =>
      match render_item index item with
      | None => (children, false)
      | Some entry => forEach (S index) rest (children ++ [entry])
      end
  end.

(** Lines 6-23, run when the request has settled: the children of
    [#ranking-list] afterwards, and whether the function returned
    normally.  A failed [fetch] or [res.json()] raises before the list
    is cleared. *)
Definition loadRanking_render `{HtmlParser} (old : list li) (o : fetch_outcome)
  : list li * bool :=
  match o with
  | NetworkError => (old, false)
  | Response _ None => (old, false)
  | Response _ (Some data) =>
      match data with
      | JArr items => forEach 0 items []
      | _ => ([], false)
      end
  end.

(** [loadRanking], with [fetch] telling how the request of a URL ends:
    the page afterwards, the request made, and whether the function
    returned normally. *)
Definition loadRanking `{HtmlParser} (fetch : string → fetch_outcome)
    (pg : ranking_page) : ranking_page * list effect * bool :=
  let period := period_value pg in
  let url := "/ranking?period=" +:+ period in
  let '(children, returned) := loadRanking_render (ranking_list pg) (fetch url) in
  ({| period_value := period; ranking_list := children |}, [Fetch url], returned).

(** ** What an entry is to show *)

Definition open_span (cls : string) : string :=
  "      <span class=" +:+ dq +:+ cls +:+ dq +:+ ">".

Definition close_span : string := "</span>" +:+ nl.

(** The markup of one entry: three spans holding the rank, the label
    and the like count. *)
Definition entry_markup (rank label likes : string) : string :=
  nl +:+ open_span "rank-no" +:+ rank +:+ close_span
     +:+ open_span "rank-name" +:+ label +:+ close_span
     +:+ open_span "rank-like" +:+ likes +:+ close_span +:+ "    ".

(** Text the HTML parser takes as it is: no [<], no [&], no NUL and no
    carriage return. *)
Definition html_plain_char (c : Ascii.ascii) : bool :=
  negb (Ascii.eqb c (Ascii.ascii_of_nat 60))
  && negb (Ascii.eqb c (Ascii.ascii_of_nat 38))
  && negb (Ascii.eqb c (Ascii.ascii_of_nat 0))
  && negb (Ascii.eqb c (Ascii.ascii_of_nat 13)).

Fixpoint html_plain (s : string) : bool :=
  match s with
  | EmptyString => true
  | String c rest => html_plain_char c && html_plain rest
  end.

(** The parser turns the markup of an entry whose three texts are plain
    into three spans with those texts. *)
Definition parser_exact (P : HtmlParser) : Prop :=
  ∀ rank label likes,
    html_plain rank = true → html_plain label = true →
    html_plain likes = true →
    innerHTML_children (entry_markup rank label likes)
      = [ {| child_class := "rank-no"; child_text := rank |};
          {| child_class := "rank-name"; child_text := label |};
          {| child_class := "rank-like"; child_text := likes |} ].

(** An entry of the ranking: two names and a like count. *)
Record entry : Type := {
  username : string;
  car_name : string;
  likes : Z;
}.

(** [item] is the payload of [e]: its [username] and [car_name] are the
    strings of [e] and its [likes] is the number of [e]. *)
Definition payload_of (e : entry) (item : jsval) : Prop :=
  get_prop item "username" = Some (JStr (username e)) ∧
  get_prop item "car_name" = Some (JStr (car_name e)) ∧
  ∃ safe, get_prop item "likes" = Some (JNum (likes e) safe).

Definition plain_names (e : entry) : Prop :=
  html_plain (username e) = true ∧ html_plain (car_name e) = true.

(** The item the page is to show at position [i] for [e]: the rank
    [i + 1], the label "username / car_name" and the heart followed by
    the like count, and the class [rank-1] on the first item only. *)
Definition shown_item (i : nat) (e : entry) : li :=
  {| li_classList :=
       if decide (i = 0) then ["ranking-item"; "rank-1"] else ["ranking-item"];
     li_children :=
       [ {| child_class := "rank-no"; child_text := pretty (i + 1) |};
         {| child_class := "rank-name";
            child_text := username e +:+ " / " +:+ car_name e |};
         {| child_class := "rank-like";
            child_text := "❤️ " +:+ pretty (likes e) |} ] |}.

(** The list of the page after [loadRanking] has one item for each
    entry of the response [items]. *)
Definition one_item_per_entry `{HtmlParser} (fetch : string → fetch_outcome)
    (pg : ranking_page) (items : list jsval) : Prop :=
  length (ranking_list (loadRanking fetch pg).1.1) = length items.

(** The item can be rendered: its members can be read, and each of the
    three the template prints has a string form. *)
Definition renderable (item : jsval) : bool :=
  match get_prop item "username", get_prop item "car_name",
        get_prop item "likes" with
  | Some username, Some car_name, Some likes =>
      convertible username && convertible car_name && convertible likes
  | _, _, _ => false
  end.

(** ** A parser for the markup of an entry *)

Fixpoint strip (prefix s : string) : option string :=
  match prefix with
  | EmptyString => Some s
  | String c prefix' =>
      match s with
      | String d s' => if Ascii.eqb c d then strip prefix' s' else None
      | EmptyString => None
      end
  end.

(** The text up to the next [<], and the rest. *)
Fixpoint until_lt (s : string) : string * string :=
  match s with
  | EmptyString => (EmptyString, EmptyString)
  | String c rest =>
      if Ascii.eqb c (Ascii.ascii_of_nat 60) then (EmptyString, s)
      else let '(text, rest') := until_lt rest in (String c text, rest')
  end.

Definition read_span (cls : string) (s : string) : option (child * string) :=
  s ← strip (open_span cls) s;
  let '(text, s) := until_lt s in
  s ← strip close_span s;
  Some ({| child_class := cls; child_text := text |}, s).

(** A parser that reads the markup of an entry and nothing else. *)
Definition entry_parser : HtmlParser := λ markup,
  default []
    (s ← strip nl markup;
     '(rank, s) ← read_span "rank-no" s;
     '(label, s) ← read_span "rank-name" s;
     '(likes, s) ← read_span "rank-like" s;
     if String.eqb s "    " then Some [rank; label; likes] else None).

(** ** Sample data *)

(** The entries of the scenario of the specification. *)
Definition sample_entries : list entry :=
  [ {| username := "a"; car_name := "X"; likes := 10 |};
    {| username := "b"; car_name := "Y"; likes := 5 |} ].

(** The response of the scenario. *)
Definition sample_ranking : list jsval :=
  [ JObj [("username", JStr "a"); ("car_name", JStr "X");
          ("likes", JNum 10 eq_refl)];
    JObj [("username", JStr "b"); ("car_name", JStr "Y");
          ("likes", JNum 5 eq_refl)] ].

(** A list left over from an earlier load. *)
Definition stale_list : list li :=
  [ {| li_classList := ["ranking-item"; "rank-1"];
       li_children := [ {| child_class := "rank-no"; child_text := "1" |} ] |} ].

(** The page with the period "week" selected. *)
Definition week_page : ranking_page :=
  {| period_value := "week"; ranking_list := stale_list |}.

(** A server that answers the ranking of the week with [items]. *)
Definition week_server (items : list jsval) : string → fetch_outcome :=
  λ url, if String.eqb url "/ranking?period=week"
         then Response 200 (Some (JArr items)) else Response 404 None.

(** An entry whose username is an object with a member [toString]. *)
Definition odd_entry : jsval :=
  JObj [("username", JObj [("toString", JNum 1 eq_refl)]);
        ("car_name", JStr "X"); ("likes", JNum 1 eq_refl)].

End Ranking.

(* ===================================================================== *)
(** * The page, as the like scripts see it *)
(* ===================================================================== *)

(** An element of the page.  [like_icon] and [like_count] are the text of
    the first descendant matching [.like-icon] and [.like-count]
    ([None]: [querySelector] answers [null]).  Like buttons are not
    nested in one another, so each has its own icon and count. *)
Record element : Type := {
  classList : list string;
  data_post_id : option string;      (* dataset.postId *)
  data_comment_id : option string;   (* dataset.commentId *)
  data_liked : option string;        (* dataset.liked *)
  data_loading : option string;      (* dataset.loading *)
  disabled : bool;
  aria_pressed : option string;
  like_icon : option string;
  like_count : option string;
}.

(** The elements of the document, in document order; an element is
    referred to by its position. *)
Abbreviation page := (list element).

Definition set_classList (f : list string → list string) (b : element) : element :=
  {| classList := f (classList b); data_post_id := data_post_id b;
     data_comment_id := data_comment_id b; data_liked := data_liked b;
     data_loading := data_loading b; disabled := disabled b;
     aria_pressed := aria_pressed b; like_icon := like_icon b;
     like_count := like_count b |}.

Definition set_data_liked (s : string) (b : element) : element :=
  {| classList := classList b; data_post_id := data_post_id b;
     data_comment_id := data_comment_id b; data_liked := Some s;
     data_loading := data_loading b; disabled := disabled b;
     aria_pressed := aria_pressed b; like_icon := like_icon b;
     like_count := like_count b |}.

Definition set_data_loading (s : string) (b : element) : element :=
  {| classList := classList b; data_post_id := data_post_id b;
     data_comment_id := data_comment_id b; data_liked := data_liked b;
     data_loading := Some s; disabled := disabled b;
     aria_pressed := aria_pressed b; like_icon := like_icon b;
     like_count := like_count b |}.

Definition set_disabled (d : bool) (b : element) : element :=
  {| classList := classList b; data_post_id := data_post_id b;
     data_comment_id := data_comment_id b; data_liked := data_liked b;
     data_loading := data_loading b; disabled := d;
     aria_pressed := aria_pressed b; like_icon := like_icon b;
     like_count := like_count b |}.

Definition set_aria_pressed (s : string) (b : element) : element :=
  {| classList := classList b; data_post_id := data_post_id b;
     data_comment_id := data_comment_id b; data_liked := data_liked b;
     data_loading := data_loading b; disabled := disabled b;
     aria_pressed := Some s; like_icon := like_icon b;
     like_count := like_count b |}.

(** [const iconEl = btn.querySelector(".like-icon");
     if (iconEl) iconEl.textContent = s] *)
Definition set_icon_text (s : string) (b : element) : element :=
  {| classList := classList b; data_post_id := data_post_id b;
     data_comment_id := data_comment_id b; data_liked := data_liked b;
     data_loading := data_loading b; disabled := disabled b;
     aria_pressed := aria_pressed b;
     like_icon := match like_icon b with Some _ => Some s | None => None end;
     like_count := like_count b |}.

(** [const countEl = btn.querySelector(".like-count");
     if (countEl) countEl.textContent = s] *)
Definition set_count_text (s : string) (b : element) : element :=
  {| classList := classList b; data_post_id := data_post_id b;
     data_comment_id := data_comment_id b; data_liked := data_liked b;
     data_loading := data_loading b; disabled := disabled b;
     aria_pressed := aria_pressed b; like_icon := like_icon b;
     like_count := match like_count b with Some _ => Some s | None => None end |}.

(** A request that has been issued and has not settled: the button and
    the id its handler holds in [btn] and [postId] / [commentId]. *)
Record request : Type := {
  rq_btn : nat;
  rq_id : string;
  rq_url : string;
}.

(** [document.querySelectorAll(`.js-like[data-post-id="${postId}"]`)]:
    the positions of the selected elements, or [None] when the browser
    rejects the selector with a [SyntaxError].  The id is spliced into a
    quoted CSS string, so what the browser selects is only fixed for ids
    that need no escaping (see [matches_like] and [engine_exact]). *)
Class SelectorEngine : Type :=
  querySelectorAll_like : string → page → option (list nat).

Definition css_plain_char (c : Ascii.ascii) : bool :=
  negb (Ascii.eqb c (Ascii.ascii_of_nat 34))      (* double quote *)
  && negb (Ascii.eqb c (Ascii.ascii_of_nat 92))   (* backslash *)
  && negb (Ascii.eqb c (Ascii.ascii_of_nat 10))   (* line feed *)
  && negb (Ascii.eqb c (Ascii.ascii_of_nat 12))   (* form feed *)
  && negb (Ascii.eqb c (Ascii.ascii_of_nat 13)).  (* carriage return *)

(** The id reads as itself inside a double-quoted CSS string. *)
Fixpoint css_plain (id : string) : bool :=
  match id with
  | EmptyString => true
  | String c rest => css_plain_char c && css_plain rest
  end.

(** [b] matches [.js-like[data-post-id="id"]]. *)
Definition matches_like (id : string) (b : element) : bool :=
  classList_contains "js-like" (classList b)
  && bool_decide (data_post_id b = Some id).

Fixpoint positions_from (i : nat) (id : string) (p : page) : list nat :=
  match p with
  | [] => []
  | b :: rest =>
      if matches_like id b then i :: positions_from (S i) id rest
      else positions_from (S i) id rest
  end.

(** The engine selects exactly the matching elements for plain ids. *)
Definition engine_exact (E : SelectorEngine) : Prop :=
  ∀ id p, css_plain id = true →
    querySelectorAll_like id p = Some (positions_from 0 id p).

(** An engine that rejects every id that is not plain. *)
Definition strict_engine : SelectorEngine :=
  λ id p, if css_plain id then Some (positions_from 0 id p) else None.

(* ===================================================================== *)
(** * like.js, first revision *)
(* ===================================================================== *)

Module Part000.

(** Lines 11-23 of the click listener, after [closest(".js-like")]
    answered [btn]: the guards, the in-flight marks and the request.
    [None]: the listener returned without a request. *)
Definition click_begin (p : page) (btn : nat) : option (page * request) :=
  b ← p !! btn;
  let postId := data_post_id b in
  if negb (truthy (of_attr postId)) then None
  else if is_string "1" (of_attr (data_loading b)) then None
  else
    Some (alter (set_disabled true ∘ set_data_loading "1") btn p,
          {| rq_btn := btn; rq_id := template postId;
             rq_url := "/api/like/" +:+ template postId |}).

(** Lines 40-51.  The count comes first: [None] is [String(data.likes)]
    raising, on a button that has a count child, before anything was
    written. *)
Definition show (liked likes : jsval) (b : element) : option element :=
  b ← match like_count b with
      | Some _ => count ← js_String likes; Some (set_count_text count b)
      | None => Some b
      end;
  let b := set_data_liked (if truthy liked then "1" else "0") b in
  let b := set_classList (classList_toggle "active" (truthy liked)) b in
  let b := set_aria_pressed (if truthy liked then "true" else "false") b in
  Some (set_icon_text (if truthy liked then "❤️" else "🤍") b).

(** The [try] block from the point where the request settles (lines
    25-51); [None]: an exception reaches the [catch], the page being as
    it was.  [alert] raises on a message without a string form.  The two
    [await]s are taken in one step: up to the second one the handler has
    either returned or changed nothing, so what happens on the page in
    between is seen by the rest of the handler just as if it had
    happened before. *)
Definition click_try (rq : request) (p : page) (o : fetch_outcome)
  : option (page * list effect) :=
  match o with
  | NetworkError => None
  | Response status body =>
      if (status =? 401)%Z then Some (p, [Alert (JStr "ログインしてね")])
      else if negb (res_ok status) then
        Some (p, [Alert (JStr "いいね失敗（APIエラー）")])
      else
        data ← body;
        ok ← get_prop data "ok";
        if negb (truthy ok) then
          error ← get_prop data "error";
          let message := js_or error (JStr "いいね失敗") in
          _ ← js_String message;
          Some (p, [Alert message])
        else
          likes ← get_prop data "likes";
          liked ← get_prop data "liked";
          match p !! rq_btn rq with
          | None => Some (p, [])
          | Some b =>
              b ← show liked likes b;
              Some (<[rq_btn rq := b]> p, [])
          end
  end.

(** The [finally] block. *)
Definition click_finally (rq : request) (p : page) : page :=
  alter (set_disabled false ∘ set_data_loading "0") (rq_btn rq) p.

(** [try] / [catch] / [finally] when the request of [rq] settles. *)
Definition click_settle (rq : request) (p : page) (o : fetch_outcome)
  : page * list effect :=
  let '(p1, log) :=
    default (p, [Alert (JStr "通信エラー")]) (click_try rq p o) in
  (click_finally rq p1, log).

End Part000.

(* ===================================================================== *)
(** * The posts + comments handler *)
(* ===================================================================== *)

Module Part001.

Record result : Type := {
  r_ok : bool;
  r_status : Z;
  r_data : jsval;
}.

(** [postJson]; [None]: the [fetch] promise rejected, which is not
    caught. *)
Definition postJson (o : fetch_outcome) : option result :=
  match o with
  | NetworkError => None
  | Response status body =>
      Some {| r_ok := res_ok status; r_status := status;
              r_data := default JNull body |}
  end.

(** The element the function leaves, and whether it returned: the count
    comes last, so when [String(likes)] raises, on a button that has a
    count child, the class, [dataset.liked], [aria-pressed] and the icon
    are already written. *)
Definition setLikeBtnState (liked likes : jsval) (b : element)
  : element * bool :=
  let b := set_classList (classList_toggle "active" (truthy liked)) b in
  let b := set_data_liked (if truthy liked then "1" else "0") b in
  let b := set_aria_pressed (if truthy liked then "true" else "false") b in
  let b := set_icon_text (if truthy liked then "❤️" else "🤍") b in
  match like_count b with
  | Some _ =>
      if is_defined likes then
        match js_String likes with
        | Some count => (set_count_text count b, true)
        | None => (b, false)
        end
      else (b, true)
  | None => (b, true)
  end.

(** The start of a handler up to its request, for the id attribute
    and the endpoint of the handler. *)
Definition handle_begin (id_of : element → option string) (endpoint : string)
    (p : page) (btn : nat) : option (page * request) :=
  b ← p !! btn;
  if classList_contains "is-loading" (classList b) then None
  else
    let id := id_of b in
    if negb (truthy (of_attr id)) then None
    else
      Some (alter (set_classList (classList_add "is-loading")) btn p,
            {| rq_btn := btn; rq_id := template id;
               rq_url := endpoint +:+ template id |}).

Definition handlePostLike_begin : page → nat → option (page * request) :=
  handle_begin data_post_id "/api/like/".

Definition handleCommentLike_begin : page → nat → option (page * request) :=
  handle_begin data_comment_id "/api/comment_like/".

(** [r.data.k], read only where [r.data] is known to be truthy. *)
Definition field (data : jsval) (k : string) : jsval :=
  default JUndef (get_prop data k).

(** The [try] block of either handler once [postJson] has settled: the
    page it leaves, and what it surfaced; [None]: an exception left the
    block ([postJson] or [setLikeBtnState] raised). *)
Definition handle_try (rq : request) (p : page) (o : fetch_outcome)
  : page * option (list effect) :=
  match postJson o with
  | None => (p, None)
  | Some r =>
      if negb (r_ok r) || negb (truthy (r_data r))
         || negb (is_true (field (r_data r) "ok")) then
        if truthy (r_data r)
           && is_string "login_required" (field (r_data r) "error") then
          (p, Some [SetLocation "/login"])
        else (p, Some [])
      else
        match p !! rq_btn rq with
        | None => (p, Some [])
        | Some b =>
            let '(b, returned) :=
              setLikeBtnState (field (r_data r) "liked")
                              (field (r_data r) "likes") b in
            (<[rq_btn rq := b]> p, if returned then Some [] else None)
        end
  end.

Definition handle_finally (rq : request) (p : page) : page :=
  alter (set_classList (classList_remove "is-loading")) (rq_btn rq) p.

(** [try] / [finally]: an exception leaves the handler after the
    [finally] block ran. *)
Definition handle_settle (rq : request) (p : page) (o : fetch_outcome)
  : page * list effect :=
  let '(p1, surfaced) := handle_try rq p o in
  (handle_finally rq p1, default [UnhandledRejection] surfaced).

End Part001.

(* ===================================================================== *)
(** * like.js, second revision *)
(* ===================================================================== *)

Module Part002.

(** The body of the [forEach] callback of [updateButtons]: the element
    it leaves, and whether it returned.  The count comes last, so when
    [String(likes)] raises, on a button that has a count child,
    [dataset.liked], the class, [aria-pressed] and the icon are already
    written. *)
Definition update_button (liked likes : jsval) (b : element)
  : element * bool :=
  let b := set_data_liked (if truthy liked then "1" else "0") b in
  let b := set_classList (classList_toggle "active" (truthy liked)) b in
  let b := set_aria_pressed (if truthy liked then "true" else "false") b in
  let b := set_icon_text (if truthy liked then "❤️" else "🤍") b in
  match like_count b with
  | Some _ =>
      match js_String likes with
      | Some count => (set_count_text count b, true)
      | None => (b, false)
      end
  | None => (b, true)
  end.

(** [buttons.forEach(...)]: the loop ends at the first button whose
    callback raises, leaving the buttons after it untouched. *)
Fixpoint forEach (liked likes : jsval) (buttons : list nat) (p : page)
  : page * bool :=
  match buttons with
  | [] => (p, true)
  | btn :: rest =>
      match p !! btn with
      | None => forEach liked likes rest p
      | Some b =>
          let '(b, returned) := update_button liked likes b in
          if returned then forEach liked likes rest (<[btn := b]> p)
          else (<[btn := b]> p, false)
      end
  end.

(** The page [updateButtons] leaves, and whether it returned;
    [querySelectorAll] raises before anything is written. *)
Definition updateButtons `{SelectorEngine} (postId : string)
    (liked likes : jsval) (p : page) : page * bool :=
  match querySelectorAll_like postId p with
  | None => (p, false)
  | Some buttons => forEach liked likes buttons p
  end.

(** [toggleLike] up to its request (lines 22-35). *)
Definition toggleLike_begin (p : page) (btn : nat) : option (page * request) :=
  b ← p !! btn;
  let postId := data_post_id b in
  if negb (truthy (of_attr postId)) then None
  else if is_string "1" (of_attr (data_loading b)) then None
  else
    Some (alter (set_classList (classList_add "is-loading")
                 ∘ set_disabled true ∘ set_data_loading "1") btn p,
          {| rq_btn := btn; rq_id := template postId;
             rq_url := "/api/like/" +:+ template postId |}).

(** The [try] block from the point where the request settles (lines
    37-52), with the two [await]s taken in one step as for the first
    revision: the page it leaves, and what it surfaced; [None]: an
    exception reaches the [catch] ([res.json()] rejects, reading
    [data.ok] raises on [null], [alert] raises on a message without a
    string form, or [updateButtons] raises). *)
Definition toggleLike_try `{SelectorEngine} (rq : request) (p : page)
    (o : fetch_outcome) : page * option (list effect) :=
  match o with
  | NetworkError => (p, None)
  | Response status body =>
      if (status =? 401)%Z then (p, Some [Alert (JStr "ログインしてね")])
      else if negb (res_ok status) then
        (p, Some [Alert (JStr "いいね失敗（APIエラー）")])
      else
        match body with
        | None => (p, None)
        | Some data =>
            match get_prop data "ok" with
            | None => (p, None)
            | Some ok =>
                if negb (truthy ok) then
                  match get_prop data "error" with
                  | None => (p, None)
                  | Some error =>
                      let message := js_or error (JStr "いいね失敗") in
                      (p, (λ _, [Alert message]) <$> js_String message)
                  end
                else
                  match get_prop data "liked", get_prop data "likes" with
                  | Some liked, Some likes =>
                      let '(p1, returned) :=
                        updateButtons (rq_id rq) liked likes p in
                      (p1, if returned then Some [] else None)
                  | _, _ => (p, None)
                  end
            end
        end
  end.

Definition toggleLike_finally (rq : request) (p : page) : page :=
  alter (set_classList (classList_remove "is-loading")
         ∘ set_disabled false ∘ set_data_loading "0") (rq_btn rq) p.

Definition toggleLike_settle `{SelectorEngine} (rq : request) (p : page)
    (o : fetch_outcome) : page * list effect :=
  let '(p1, surfaced) := toggleLike_try rq p o in
  (toggleLike_finally rq p1, default [Alert (JStr "通信エラー")] surfaced).

End Part002.

(* ===================================================================== *)
(** * The like scripts as one event-driven machine *)
(* ===================================================================== *)

Inductive script : Type := Script000 | Script001 | Script002.

(** What reaches a handler.  The listener has already resolved the
    button: [ClickLike btn] is a click whose [closest(".js-like")] is
    [btn], [ClickCommentLike btn] a click outside any [.js-like] whose
    [closest(".js-comment-like")] is [btn], [SubmitLikeForm btn] a
    [submit] of a [.like-form] whose first [.js-like] is [btn], and
    [Settle k o] the moment the [k]-th outstanding request ends as [o]. *)
Inductive event : Type :=
  | ClickLike (btn : nat)
  | ClickCommentLike (btn : nat)
  | SubmitLikeForm (btn : nat)
  | Settle (k : nat) (o : fetch_outcome).

(** The handler up to its [await]; [None]: it returned before any
    request (or the script has no listener for the event). *)
Definition handler_begin (v : script) (e : event) (p : page)
  : option (page * request) :=
  match v, e with
  | Script000, ClickLike btn => Part000.click_begin p btn
  | Script001, ClickLike btn => Part001.handlePostLike_begin p btn
  | Script001, ClickCommentLike btn => Part001.handleCommentLike_begin p btn
  | Script002, ClickLike btn => Part002.toggleLike_begin p btn
  | Script002, SubmitLikeForm btn => Part002.toggleLike_begin p btn
  | _, _ => None
  end.

(** The rest of the handler, run on the page as it is when the request
    settles. *)
Definition handler_settle `{SelectorEngine} (v : script) (rq : request)
    (p : page) (o : fetch_outcome) : page * list effect :=
  match v with
  | Script000 => Part000.click_settle rq p o
  | Script001 => Part001.handle_settle rq p o
  | Script002 => Part002.toggleLike_settle rq p o
  end.

Record world : Type := {
  dom : page;
  outstanding : list request;
  log : list effect;
}.

Definition step `{SelectorEngine} (v : script) (s : world) (e : event) : world :=
  match e with
  | Settle k o =>
      match outstanding s !! k with
      | None => s
      | Some rq =>
          let '(p, out) := handler_settle v rq (dom s) o in
          {| dom := p; outstanding := delete k (outstanding s);
             log := log s ++ out |}
      end
  | _ =>
      match handler_begin v e (dom s) with
      | None => s
      | Some (p, rq) =>
          {| dom := p; outstanding := outstanding s ++ [rq];
             log := log s ++ [Fetch (rq_url rq)] |}
      end
  end.

Definition run `{SelectorEngine} (v : script) (s : world) (es : list event)
  : world :=
  foldl (step v) s es.

(** The in-flight flag each script tests in its guard. *)
Definition in_flight (v : script) (b : element) : bool :=
  match v with
  | Script000 | Script002 => is_string "1" (of_attr (data_loading b))
  | Script001 => classList_contains "is-loading" (classList b)
  end.

(** Everything a script switches on while its request is outstanding:
    the flag, and the disabled or loading look. *)
Definition marks (v : script) (b : element) : list bool :=
  match v with
  | Script000 => [is_string "1" (of_attr (data_loading b)); disabled b]
  | Script001 => [classList_contains "is-loading" (classList b)]
  | Script002 => [is_string "1" (of_attr (data_loading b)); disabled b;
                  classList_contains "is-loading" (classList b)]
  end.

Definition marks_on (v : script) (b : element) : bool := forallb id (marks v b).
Definition marks_off (v : script) (b : element) : bool := forallb negb (marks v b).

(** A request of button [i] is outstanding. *)
Definition pending (s : world) (i : nat) : Prop :=
  i ∈ rq_btn <$> outstanding s.

(** A page as the server rendered it: nothing in flight. *)
Definition quiescent (v : script) (s : world) : Prop :=
  outstanding s = [] ∧ ∀ i b, dom s !! i = Some b → marks_off v b = true.

(** The event is a click or submit resolved to button [btn]. *)
Definition aims_at (btn : nat) (e : event) : Prop :=
  e = ClickLike btn ∨ e = ClickCommentLike btn ∨ e = SubmitLikeForm btn.

(** ** What the user sees of a like button *)

Definition display (b : element)
  : option string * bool * option string * option string * option string :=
  (data_liked b, classList_contains "active" (classList b), aria_pressed b,
   like_icon b, like_count b).

Definition heart (liked : bool) : string := if liked then "❤️" else "🤍".

(** [after] is [before] switched to [liked], with the count text
    replaced by [count] when one is given. *)
Definition switched_to (liked : bool) (count : option string)
    (before after : element) : Prop :=
  classList_contains "active" (classList after) = liked ∧
  aria_pressed after = Some (if liked then "true" else "false") ∧
  like_icon after = ((λ _, heart liked) <$> like_icon before) ∧
  like_count after =
    match count with
    | Some c => (λ _, c) <$> like_count before
    | None => like_count before
    end.

(** The payload of an ok response reports success, as each script
    tests it. *)
Definition payload_success (v : script) (data : jsval) : bool :=
  match v with
  | Script001 => truthy data && is_true (Part001.field data "ok")
  | _ => match get_prop data "ok" with
         | Some ok => truthy ok
         | None => false
         end
  end.

(** Every like button of the page bound to the id of [rq] shows the
    liked state [liked] and the count text [count] once [rq] has settled
    on the ok response with payload [data]. *)
Definition all_bound_updated `{SelectorEngine} (v : script) (rq : request)
    (p : page) (status : Z) (data : jsval) (liked : bool) (count : string)
  : Prop :=
  let p' := (handler_settle v rq p (Response status (Some data))).1 in
  ∀ j b, p !! j = Some b → matches_like (rq_id rq) b = true →
    ∃ b', p' !! j = Some b' ∧ switched_to liked (Some count) b b'.

(** A "login required" signal: the notice or the redirect. *)
Definition login_signal (out : list effect) : Prop :=
  Alert (JStr "ログインしてね") ∈ out ∨ SetLocation "/login" ∈ out.

(** A response with status 401 surfaces the login signal and changes
    nothing the user sees. *)
Definition login_required_handled `{SelectorEngine} (v : script)
    (rq : request) (p : page) (body : option jsval) : Prop :=
  let '(p', out) := handler_settle v rq p (Response 401 body) in
  login_signal out ∧ display <$> p' = display <$> p.

(** The failures of the fourth response rule. *)
Inductive failure : Type :=
  | HttpFailure                      (* not 2xx and not 401 *)
  | PayloadFailure (error : jsval)   (* 2xx, the payload's flag is false *)
  | TransportFailure.                (* network or parse exception *)

Definition classify (o : fetch_outcome) : option failure :=
  match o with
  | NetworkError => Some TransportFailure
  | Response status body =>
      if (status =? 401)%Z then None
      else if negb (res_ok status) then Some HttpFailure
      else match body with
           | None => Some TransportFailure
           | Some data =>
               match get_prop data "ok" with
               | Some ok =>
                   if truthy ok then None
                   else Some (PayloadFailure (Part001.field data "error"))
               | None => None
               end
           end
  end.

(** The notice owed for a failure: the server's message when there is
    one, else a fixed text. *)
Definition notice (f : failure) : jsval :=
  match f with
  | HttpFailure => JStr "いいね失敗（APIエラー）"
  | PayloadFailure error => if truthy error then error else JStr "いいね失敗"
  | TransportFailure => JStr "通信エラー"
  end.

(** A failed toggle surfaces a notice and changes nothing the user
    sees. *)
Definition failure_handled `{SelectorEngine} (v : script) (rq : request)
    (p : page) (o : fetch_outcome) : Prop :=
  let '(p', out) := handler_settle v rq p o in
  (∃ msg, Alert msg ∈ out) ∧ display <$> p' = display <$> p.

(** The handler of the posts + comments script, from the moment its
    helper has returned, performs no DOM mutation. *)
Definition no_dom_mutation (rq : request) (p : page) (o : fetch_outcome)
  : Prop :=
  (Part001.handle_settle rq p o).1 = p.

(* ===================================================================== *)
(** * Dispatch of a click *)
(* ===================================================================== *)

Module Dispatch.

(** A listener's callback: the click listener of one of the like
    scripts, or a handler of the surrounding page (an inline [onclick]
    of a card, say), which is only recorded. *)
Inductive callback : Type :=
  | LikeListener (v : script)
  | PageHandler (name : string).

(** [addEventListener("click", callback, capture)] *)
Record listener : Type := {
  capture : bool;
  run_callback : callback;
}.

(** A node of the event path: its classes (none for [window] and
    [document]) and its click listeners in registration order. *)
Record node : Type := {
  node_classList : list string;
  listeners : list listener;
}.

Record flags : Type := {
  stop_propagation : bool;
  stop_immediate : bool;
  canceled : bool;              (* [preventDefault] was called *)
}.

Definition no_flags : flags :=
  {| stop_propagation := false; stop_immediate := false; canceled := false |}.

(** [e.target.closest("." + c)] finds something: a node of the path
    (the target or an ancestor) carries the class. *)
Definition closest (c : string) (path : list node) : bool :=
  existsb (λ n, classList_contains c (node_classList n)) path.

(** The lines of each click listener that touch the event. *)
Definition like_listener (v : script) (path : list node) (f : flags) : flags :=
  match v with
  | Script000 =>
      if closest "js-like" path then
        {| stop_propagation := true; stop_immediate := stop_immediate f;
           canceled := true |}
      else f
  | Script001 =>
      if closest "js-like" path || closest "js-comment-like" path then
        {| stop_propagation := true; stop_immediate := stop_immediate f;
           canceled := true |}
      else f
  | Script002 =>
      if closest "js-like" path then
        {| stop_propagation := true; stop_immediate := true;
           canceled := true |}
      else f
  end.

Definition call (cb : callback) (path : list node) (f : flags) : flags :=
  match cb with
  | LikeListener v => like_listener v path f
  | PageHandler _ => f
  end.

(** The calls made so far: position of the node in the path and the
    callback. *)
Abbreviation trace := (list (nat * callback)).

(** The listeners of node [i] for one phase, in registration order,
    until one of them stops the rest. *)
Fixpoint invoke (capturing : bool) (path : list node) (i : nat)
    (ls : list listener) (f : flags) (t : trace) : flags * trace :=
  match ls with
  | [] => (f, t)
  | l :: rest =>
      if stop_immediate f then (f, t)
      else if eqb (capture l) capturing then
        invoke capturing path i rest
               (call (run_callback l) path f) (t ++ [(i, run_callback l)])
      else invoke capturing path i rest f t
  end.

(** One phase over the given nodes, until propagation is stopped. *)
Fixpoint phase (capturing : bool) (path : list node)
    (nodes : list (nat * node)) (f : flags) (t : trace) : flags * trace :=
  match nodes with
  | [] => (f, t)
  | (i, n) :: rest =>
      if stop_propagation f then (f, t)
      else
        let '(f', t') := invoke capturing path i (listeners n) f t in
        phase capturing path rest f' t'
  end.

(** A click on the last node of [path] ([window] comes first): the
    capturing listeners from [window] down to the target, then the
    others from the target up to [window]. *)
Definition dispatch (path : list node) : flags * trace :=
  let nodes := imap pair path in
  let '(f, t) := phase true path nodes no_flags [] in
  phase false path (reverse nodes) f t.

(** A handler registered on node [i] was called. *)
Definition reached (i : nat) (t : trace) : Prop :=
  ∃ cb, (i, cb) ∈ t.

(** The three scripts register their click listener on [document]:
    the first and the second revision of like.js with [capture] set,
    the posts + comments script without. *)
Definition registration (v : script) : listener :=
  {| capture := match v with Script001 => false | _ => true end;
     run_callback := LikeListener v |}.

(** A card with an [onclick] around a like button, under the document
    of script [v]: [window], [document], [html], [body], the card, the
    button. *)
Definition card_page (v : script) : list node :=
  [ {| node_classList := []; listeners := [] |};
    {| node_classList := []; listeners := [registration v] |};
    {| node_classList := []; listeners := [] |};
    {| node_classList := []; listeners := [] |};
    {| node_classList := ["post-card"];
       listeners := [{| capture := false;
                        run_callback := PageHandler "card.onclick" |}] |};
    {| node_classList := ["js-like"]; listeners := [] |} ].

End Dispatch.

(* ===================================================================== *)
(** * Sample pages and payloads *)
(* ===================================================================== *)

(** The button of the scenario: post 42, not liked, three likes. *)
Definition like_button : element :=
  {| classList := ["js-like"]; data_post_id := Some "42";
     data_comment_id := None; data_liked := Some "0";
     data_loading := None; disabled := false;
     aria_pressed := Some "false"; like_icon := Some "🤍";
     like_count := Some "3" |}.

(** The same card rendered twice on one page. *)
Definition two_cards : page := [like_button; like_button].

(** The request of a click on the first of them. *)
Definition first_card_request : request :=
  {| rq_btn := 0; rq_id := "42"; rq_url := "/api/like/42" |}.

(** [{ok: true, liked: true, likes: 4}] *)
Definition liked_payload : jsval :=
  JObj [("ok", JBool true); ("liked", JBool true); ("likes", JNum 4 eq_refl)].

(** [{ok: false, error: "post not found"}] *)
Definition refused_payload : jsval :=
  JObj [("ok", JBool false); ("error", JStr "post not found")].

(** The page of the posts + comments script while the request of the
    first card is outstanding. *)
Definition loading_cards : page :=
  [set_classList (classList_add "is-loading") like_button; like_button].

Definition fresh_world : world :=
  {| dom := two_cards; outstanding := []; log := [] |}.

(** The payload of a 401 response asks for a login, as the posts +
    comments script tests it. *)
Definition login_payload (body : option jsval) : bool :=
  match body with
  | Some data =>
      truthy data && is_string "login_required" (Part001.field data "error")
  | None => false
  end.

(** What each script does when its request has settled, after the
    response was handled: the [finally] block. *)
Definition unmark (v : script) : element → element :=
  match v with
  | Script000 => set_disabled false ∘ set_data_loading "0"
  | Script001 => set_classList (classList_remove "is-loading")
  | Script002 => set_classList (classList_remove "is-loading")
                 ∘ set_disabled false ∘ set_data_loading "0"
  end.

(** What each script does to the button before it issues the request. *)
Definition mark (v : script) : element → element :=
  match v with
  | Script000 => set_disabled true ∘ set_data_loading "1"
  | Script001 => set_classList (classList_add "is-loading")
  | Script002 => set_classList (classList_add "is-loading")
                 ∘ set_disabled true ∘ set_data_loading "1"
  end.

(** The marks follow the requests: no button has two outstanding
    requests, a button with an outstanding request carries every mark,
    and a button without one carries none. *)
Definition marks_follow_requests (v : script) (s : world) : Prop :=
  NoDup (rq_btn <$> outstanding s) ∧
  ∀ i b, dom s !! i = Some b →
    (pending s i → marks_on v b = true) ∧
    (¬ pending s i → marks_off v b = true).

(** Only the clicked button shows the liked state [liked] and the count
    text [count] once [rq] has settled on the ok response with payload
    [data]; every other element is as it was. *)
Definition clicked_only_updated `{SelectorEngine} (v : script) (rq : request)
    (p : page) (status : Z) (data : jsval) (liked : bool) (count : string)
  : Prop :=
  let p' := (handler_settle v rq p (Response status (Some data))).1 in
  (∀ b, p !! rq_btn rq = Some b →
     ∃ b', p' !! rq_btn rq = Some b' ∧ switched_to liked (Some count) b b') ∧
  (∀ j, j ≠ rq_btn rq → p' !! j = p !! j).

(** The element a completed update leaves: the liked state [liked] and,
    where there is a count child, the count text [count]. *)
Definition updated (liked : bool) (count : string) (b : element) : element :=
  set_count_text count
    (set_icon_text (heart liked)
       (set_aria_pressed (if liked then "true" else "false")
          (set_classList (classList_toggle "active" liked)
             (set_data_liked (if liked then "1" else "0") b)))).

(** The element an update leaves when the count could not be written. *)
Definition half_updated (liked : bool) (b : element) : element :=
  set_icon_text (heart liked)
    (set_aria_pressed (if liked then "true" else "false")
       (set_classList (classList_toggle "active" liked)
          (set_data_liked (if liked then "1" else "0") b))).

(** What the response handling can have done to an element: nothing,
    or a number of writes of a like state and of a count text. *)
Inductive written : element → element → Prop :=
  | written_none b : written b b
  | written_state liked b b' :
      written b b' → written b (half_updated liked b')
  | written_count count b b' :
      written b b' → written b (set_count_text count b').

(** A payload whose [error] has no string form. *)
Definition odd_error_payload : jsval :=
  JObj [("ok", JBool false); ("error", JObj [("toString", JNull)])].

(** A payload whose [likes] has no string form: the member is an object
    with a member [toString]. *)
Definition odd_likes_payload : jsval :=
  JObj [("ok", JBool true); ("liked", JBool true);
        ("likes", JObj [("toString", JNull)])].

(** The flags only ever stop propagation together with cancelling the
    default action, as the like listeners set them. *)
Definition guarded (f : Dispatch.flags) : Prop :=
  (Dispatch.stop_immediate f = true → Dispatch.stop_propagation f = true) ∧
  (Dispatch.stop_propagation f = true → Dispatch.canceled f = true).


(* ===================================================================== *)
(** * The listeners of the like scripts *)
(* ===================================================================== *)

(** What a click listener asks of its event: the results of
    [e.target.closest(".js-like")] and
    [e.target.closest(".js-comment-like")]. *)
Record click_target : Type := {
  closest_js_like : option nat;
  closest_js_comment_like : option nat;
}.

(** What the submit listener asks of its event: the form found by
    [e.target.closest(".like-form")], given by the result of its
    [querySelector(".js-like")]. *)
Record submit_target : Type := {
  closest_like_form : option (option nat);
}.

(** The click listener of each script.  The boolean tells whether the
    listener called [preventDefault] and [stopPropagation]; the handler
    it starts runs up to its [await]. *)
Definition click_listener `{SelectorEngine} (v : script) (t : click_target)
    (s : world) : bool * world :=
  match v with
  | Script000 | Script002 =>
      match closest_js_like t with
      | None => (false, s)
      | Some btn => (true, step v s (ClickLike btn))
      end
  | Script001 =>
      match closest_js_like t with
      | Some btn => (true, step v s (ClickLike btn))
      | None =>
          match closest_js_comment_like t with
          | Some btn => (true, step v s (ClickCommentLike btn))
          | None => (false, s)
          end
      end
  end.

(** The submit listener: only the second revision of like.js has one. *)
Definition submit_listener `{SelectorEngine} (v : script) (t : submit_target)
    (s : world) : bool * world :=
  match v with
  | Script002 =>
      match closest_like_form t with
      | Some (Some btn) => (true, step v s (SubmitLikeForm btn))
      | _ => (false, s)
      end
  | _ => (false, s)
  end.

(** The response is one on which script [v] updates the page. *)
Definition succeeds (v : script) (o : fetch_outcome) : bool :=
  match o with
  | Response status (Some data) => res_ok status && payload_success v data
  | _ => false
  end.

(** What no handler touches: the ids of an element, its being a like
    button of either kind, and its having an icon and a count child. *)
Definition skeleton (b : element)
  : option string * option string * bool * bool * bool * bool :=
  (data_post_id b, data_comment_id b,
   classList_contains "js-like" (classList b),
   classList_contains "js-comment-like" (classList b),
   bool_decide (is_Some (like_icon b)), bool_decide (is_Some (like_count b))).

(** An id that cannot be written as it is inside the quoted selector:
    a 4, a double quote and a 2. *)
Definition quoted_id : string :=
  "4" +:+ String (Ascii.ascii_of_nat 34) "2".

(** A card whose button carries that id. *)
Definition quoted_card : element :=
  {| classList := ["js-like"]; data_post_id := Some quoted_id;
     data_comment_id := None; data_liked := Some "0";
     data_loading := None; disabled := false;
     aria_pressed := Some "false"; like_icon := Some "🤍";
     like_count := Some "3" |}.

(** A comment with a like button: comment 7, not liked, no likes. *)
Definition comment_button : element :=
  {| classList := ["js-comment-like"]; data_post_id := None;
     data_comment_id := Some "7"; data_liked := Some "0";
     data_loading := None; disabled := false;
     aria_pressed := Some "false"; like_icon := Some "🤍";
     like_count := Some "0" |}.

(** A like button the server rendered without an id. *)
Definition anonymous_button : element :=
  {| classList := ["js-like"]; data_post_id := None;
     data_comment_id := None; data_liked := None;
     data_loading := None; disabled := false;
     aria_pressed := None; like_icon := Some "🤍";
     like_count := Some "0" |}.

(** A post page: the post's button, a comment's button, and a button
    without an id. *)
Definition post_page : world :=
  {| dom := [like_button; comment_button; anonymous_button];
     outstanding := []; log := [] |}.

(* ===================================================================== *)
(** * modal.js as a machine *)
(* ===================================================================== *)

Inductive modal_event : Type :=
  | ModalClick (e : Modal.click)
  | ModalKey (key : string).

Definition modal_step (m : Modal.state) (e : modal_event) : Modal.state :=
  match e with
  | ModalClick c => Modal.on_click c m
  | ModalKey key => Modal.on_keydown key m
  end.

Definition modal_run (m : Modal.state) (es : list modal_event) : Modal.state :=
  foldl modal_step m es.

(** The overlay, the [aria-hidden] attribute, the image source and the
    scroll lock agree: all say "open" or all say "closed". *)
Definition modal_coherent (m : Modal.state) : Prop :=
  (Modal.is_open m = true ∧ Modal.modal_aria_hidden m = Some "false" ∧
   Modal.modalImg_src m ≠ "" ∧ Modal.body_overflow m = "hidden") ∨
  Modal.hidden m.

(** [{ok: false, error: "login_required"}] *)
Definition login_required_payload : jsval :=
  JObj [("ok", JBool false); ("error", JStr "login_required")].

(** The request of a click on the card with the quoted id. *)
Definition quoted_card_request : request :=
  {| rq_btn := 0; rq_id := quoted_id; rq_url := "/api/like/" +:+ quoted_id |}.

(** The calls a phase makes when no listener stops anything: on each
    node in turn, the listeners of the phase in registration order. *)
Definition calls (capturing : bool) (nodes : list (nat * Dispatch.node))
  : Dispatch.trace :=
  nodes ≫= λ '(i, n),
    (λ l, (i, Dispatch.run_callback l)) <$>
      filter (λ l, Dispatch.capture l = capturing) (Dispatch.listeners n).

(** The carriers of the liked state of a button agree: [dataset.liked],
    [aria-pressed] and the icon (where there is one) say what the class
    [active] says. *)
Definition like_coherent (b : element) : Prop :=
  let active := classList_contains "active" (classList b) in
  data_liked b = Some (if active then "1" else "0") ∧
  aria_pressed b = Some (if active then "true" else "false") ∧
  (like_icon b = None ∨ like_icon b = Some (heart active)).

(* ===================================================================== *)
(** * Facts about values and class lists *)
(* ===================================================================== *)

Lemma truthy_JStr (s : string) : truthy (JStr s) = bool_decide (s ≠ "").
Proof.
  simpl. destruct (String.eqb s "") eqn:E.
  - apply String.eqb_eq in E. subst. reflexivity.
  - apply String.eqb_neq in E. symmetry. by apply bool_decide_eq_true.
Qed.

Lemma string_app_assoc (a b c : string) : (a +:+ b) +:+ c = a +:+ (b +:+ c).
Proof.
  induction a as [|x a IH]; [reflexivity |].
  change (String x ((a +:+ b) +:+ c) = String x (a +:+ (b +:+ c))).
  by rewrite IH.
Qed.

(** Induction on values, with the elements of an array at hand. *)
Lemma jsval_elements_ind (P : jsval → Prop) :
  P JUndef → P JNull → (∀ b, P (JBool b)) → (∀ n safe, P (JNum n safe)) →
  (∀ s, P (JStr s)) → (∀ xs, Forall P xs → P (JArr xs)) →
  (∀ fields, P (JObj fields)) → ∀ v, P v.
Proof.
  intros Hundef Hnull Hbool Hnum Hstr Harr Hobj. fix IH 1.
  intros [| |b|n safe|s|xs|fields];
    [exact Hundef | exact Hnull | apply Hbool | apply Hnum | apply Hstr
    | | apply Hobj].
  apply Harr. induction xs as [|x xs IHxs]; constructor; [apply IH | exact IHxs].
Qed.

(** A value has a string form exactly when it holds no object with a
    [toString] member of its own. *)
Lemma js_String_convertible (v : jsval) :
  is_Some (js_String v) ↔ convertible v = true.
Proof.
  induction v as [| |[|]|n safe|s|xs IH|fields] using jsval_elements_ind;
    simpl; try (split; [done | by eauto]).
  - induction IH as [|x xs Hx _ IHxs]; simpl; [split; [done | by eauto] |].
    rewrite andb_true_iff, <- Hx, <- IHxs. clear Hx IHxs.
    assert (Helem : is_Some (match x with
                             | JUndef | JNull => Some ""
                             | _ => js_String x
                             end) ↔ is_Some (js_String x)).
    { destruct x; simpl; split; by eauto. }
    rewrite <- Helem.
    destruct (match x with JUndef | JNull => Some "" | _ => js_String x end)
      as [sx|]; [| split; [by intros [? [=]] | by intros [[? [=]] _]]].
    destruct xs as [|y xs]; [split; by eauto |].
    match goal with
    | |- context [match ?j with Some _ => _ | None => _ end] =>
        destruct j as [sr|]
    end.
    + split; by eauto.
    + split; [by intros [? [=]] | by intros [_ [? [=]]]].
  - destruct (assoc "toString" fields); split; try done; by eauto.
    all: by intros [? [=]].
Qed.

Lemma js_String_cases (v : jsval) :
  (∃ s, js_String v = Some s ∧ convertible v = true) ∨
  (js_String v = None ∧ convertible v = false).
Proof.
  pose proof (js_String_convertible v) as [Hto Hfrom].
  destruct (js_String v) as [s|] eqn:Hs.
  - left. exists s. split; [done |]. apply Hto. by eexists.
  - right. split; [done |].
    destruct (convertible v); [| done].
    by destruct (Hfrom eq_refl).
Qed.

Lemma contains_add_same (c : string) (l : list string) :
  classList_contains c (classList_add c l) = true.
Proof.
  unfold classList_add, classList_contains.
  destruct (bool_decide (c ∈ l)) eqn:E; [exact E |].
  apply bool_decide_eq_true. set_solver.
Qed.

Lemma contains_remove_same (c : string) (l : list string) :
  classList_contains c (classList_remove c l) = false.
Proof.
  unfold classList_remove, classList_contains.
  apply bool_decide_eq_false. rewrite list_elem_of_filter. naive_solver.
Qed.

Lemma contains_add_other (c d : string) (l : list string) :
  c ≠ d → classList_contains d (classList_add c l) = classList_contains d l.
Proof.
  intros Hne. unfold classList_add, classList_contains.
  destruct (bool_decide (c ∈ l)); [reflexivity |].
  apply bool_decide_ext. set_solver.
Qed.

Lemma contains_remove_other (c d : string) (l : list string) :
  c ≠ d → classList_contains d (classList_remove c l) = classList_contains d l.
Proof.
  intros Hne. unfold classList_remove, classList_contains.
  apply bool_decide_ext. rewrite list_elem_of_filter. naive_solver.
Qed.

Lemma contains_toggle_same (c : string) (force : bool) (l : list string) :
  classList_contains c (classList_toggle c force l) = force.
Proof.
  destruct force; simpl; [apply contains_add_same | apply contains_remove_same].
Qed.

Lemma contains_toggle_other (c d : string) (force : bool) (l : list string) :
  c ≠ d →
  classList_contains d (classList_toggle c force l) = classList_contains d l.
Proof.
  intros. destruct force; simpl;
    [by apply contains_add_other | by apply contains_remove_other].
Qed.

(* ===================================================================== *)
(** * modal.js: opening and closing *)
(* ===================================================================== *)

Section ModalFacts.
Import Modal.

Lemma openModal_shows (s : string) (m : state) :
  s ≠ "" → shows s (openModal (JStr s) m).
Proof.
  intros Hs. unfold openModal. rewrite truthy_JStr.
  rewrite bool_decide_eq_true_2 by done. simpl.
  unfold shows, is_open; simpl. by rewrite contains_add_same.
Qed.

Lemma closeModal_hidden (m : state) : hidden (closeModal m).
Proof.
  unfold hidden, is_open, closeModal; simpl.
  by rewrite contains_remove_same.
Qed.

(** C7, as stated, fails: an image whose full-resolution attribute is
    present but empty does not leave the modal closed; the modal opens
    on the displayed source. *)
Lemma modal_empty_full_attribute_counterexample :
  ¬ opens_from source_if_present
      {| img_data_full := Some ""; img_src := "/img/9.jpg" |} closed_modal.
Proof.
  intros [_ H]. specialize (H eq_refl). vm_compute in H. discriminate H.
Qed.

(** C7, amended: a click on an image while the modal is closed opens
    the modal on the full-resolution attribute when that is present
    and not empty, else on the displayed source; the overlay gets the
    class [open], [aria-hidden] becomes "false" and the page scroll is
    suppressed.  If the source so resolved is empty the state is left
    as it was. *)
Theorem modal_click_image_opens (img : image) (m : state) :
  is_open m = false → opens_from source_if_nonempty img m.
Proof.
  intros _. unfold opens_from, on_click, source_if_nonempty; simpl.
  destruct (img_data_full img) as [full|]; simpl.
  - unfold js_or. rewrite truthy_JStr. destruct (decide (full = "")) as [->|Hne].
    + simpl. split; [apply openModal_shows |].
      intros ->. reflexivity.
    + rewrite bool_decide_eq_true_2 by done.
      split; [intros _; by apply openModal_shows | done].
  - unfold js_or; simpl. split; [apply openModal_shows |].
    intros ->. reflexivity.
Qed.

Lemma modal_click_image_opens_witness :
  shows "/img/full/9.jpg"
    (on_click {| closest_post_image :=
                   Some {| img_data_full := Some "/img/full/9.jpg";
                           img_src := "/img/9.jpg" |};
                 closest_data_close := false |} closed_modal).
Proof.
  refine (proj1 (modal_click_image_opens
                   {| img_data_full := Some "/img/full/9.jpg";
                      img_src := "/img/9.jpg" |} closed_modal _) _).
  - reflexivity.
  - discriminate.
Defined.

(** C8: a click on a close control, or Escape while the modal is open,
    hides the overlay, sets [aria-hidden] to "true", clears the image
    source and restores the page scroll; Escape while the modal is
    closed changes nothing. *)
Theorem modal_close_hides (m : state) :
  (∀ e, closest_post_image e = None → closest_data_close e = true →
        hidden (on_click e m)) ∧
  (is_open m = true → hidden (on_keydown "Escape" m)) ∧
  (is_open m = false → on_keydown "Escape" m = m).
Proof.
  split; [| split].
  - intros e Himg Hclose. unfold on_click. rewrite Himg, Hclose.
    apply closeModal_hidden.
  - intros Hopen. unfold on_keydown. rewrite Hopen. simpl.
    apply closeModal_hidden.
  - intros Hclosed. unfold on_keydown. rewrite Hclosed. reflexivity.
Qed.

Lemma modal_close_hides_witness :
  hidden (on_click {| closest_post_image := None;
                      closest_data_close := true |} open_modal) ∧
  hidden (on_keydown "Escape" open_modal) ∧
  on_keydown "Escape" closed_modal = closed_modal.
Proof.
  split; [| split].
  - apply (proj1 (modal_close_hides open_modal)); reflexivity.
  - apply (proj1 (proj2 (modal_close_hides open_modal))); reflexivity.
  - apply (proj2 (proj2 (modal_close_hides closed_modal))); reflexivity.
Defined.

End ModalFacts.

(* ===================================================================== *)
(** * ranking.js: the rendered list *)
(* ===================================================================== *)

Section RankingFacts.
Import Ranking.

(** ** Plain text *)

Lemma html_plain_app (a b : string) :
  html_plain (a +:+ b) = (html_plain a && html_plain b).
Proof.
  induction a as [|c a IH]; [reflexivity |].
  change (html_plain_char c && html_plain (a +:+ b)
          = html_plain_char c && html_plain a && html_plain b).
  by rewrite IH, andb_assoc.
Qed.

Lemma pretty_N_go_plain (x : N) (s : string) :
  html_plain s = true → html_plain (pretty_N_go x s) = true.
Proof.
  revert s. induction (N.lt_wf_0 x) as [x _ IH]; intros s Hs.
  destruct (decide (x = 0)%N) as [->|Hx]; [by rewrite pretty_N_go_0 |].
  rewrite pretty_N_go_step by lia. apply IH; [apply N.div_lt; lia |].
  simpl. rewrite Hs, andb_true_r.
  unfold pretty_N_char. by repeat case_match.
Qed.

Lemma pretty_N_plain (x : N) : html_plain (pretty x) = true.
Proof.
  unfold pretty, pretty_N. case_decide; [done |]. by apply pretty_N_go_plain.
Qed.

Lemma pretty_nat_plain (n : nat) : html_plain (pretty n) = true.
Proof. apply pretty_N_plain. Qed.

Lemma pretty_Z_plain (z : Z) : html_plain (pretty z) = true.
Proof.
  destruct z as [|x|x]; [done | apply (pretty_N_plain (Npos x)) |].
  change (html_plain ("-" +:+ pretty (Npos x)) = true).
  rewrite html_plain_app. apply (pretty_N_plain (Npos x)).
Qed.

(** ** One item *)

(** The string the template builds is the markup of an entry. *)
Lemma template_markup (rank username car_name likes : string) :
  nl +:+
  "      <span class=" +:+ dq +:+ "rank-no" +:+ dq +:+ ">"
    +:+ rank +:+ "</span>" +:+ nl +:+
  "      <span class=" +:+ dq +:+ "rank-name" +:+ dq +:+ ">"
    +:+ username +:+ " / " +:+ car_name
    +:+ "</span>" +:+ nl +:+
  "      <span class=" +:+ dq +:+ "rank-like" +:+ dq +:+ ">❤️ "
    +:+ likes +:+ "</span>" +:+ nl +:+
  "    "
  = entry_markup rank (username +:+ " / " +:+ car_name) ("❤️ " +:+ likes).
Proof. unfold entry_markup. by rewrite !string_app_assoc. Qed.

Lemma first_item_classes (i : nat) :
  (if decide (i = 0) then classList_add "rank-1" else id) ["ranking-item"]
  = if decide (i = 0) then ["ranking-item"; "rank-1"] else ["ranking-item"].
Proof. by destruct (decide (i = 0)). Qed.

Lemma render_item_shown `{HtmlParser} (i : nat) (e : entry) (item : jsval) :
  parser_exact H → payload_of e item → plain_names e →
  render_item i item = Some (shown_item i e).
Proof.
  intros Hexact (Hu & Hc & safe & Hl) [Hpu Hpc].
  unfold render_item. rewrite Hu, Hc, Hl. simpl.
  rewrite template_markup, first_item_classes.
  rewrite Hexact; [reflexivity | apply pretty_nat_plain | |].
  - rewrite !html_plain_app, Hpu, Hpc. reflexivity.
  - rewrite html_plain_app, pretty_Z_plain. reflexivity.
Qed.

(** The loop appends the item of each entry, numbering them from the
    index it starts at. *)
Lemma forEach_shown `{HtmlParser} (entries : list entry) (items : list jsval) :
  parser_exact H → Forall2 payload_of entries items →
  Forall plain_names entries →
  ∀ k children,
    forEach k items children
      = (children ++ imap (λ i, shown_item (k + i)) entries, true).
Proof.
  intros Hexact Hitems. induction Hitems as [|e item entries items He _ IH];
    intros Hplain k children; simpl.
  - by rewrite app_nil_r.
  - apply Forall_cons in Hplain as [Hpe Hplain].
    rewrite (render_item_shown k e item Hexact He Hpe).
    rewrite (IH Hplain), <- app_assoc. simpl. rewrite Nat.add_0_r.
    do 3 f_equal. apply imap_ext. intros i x _. simpl.
    f_equal. lia.
Qed.

(** ** The markup parser of the witness *)

Lemma strip_app (prefix s : string) : strip prefix (prefix +:+ s) = Some s.
Proof.
  induction prefix as [|c prefix IH]; [reflexivity |].
  change (strip (String c prefix) (String c (prefix +:+ s)) = Some s).
  simpl. by rewrite Ascii.eqb_refl.
Qed.

Lemma until_lt_plain (text rest : string) :
  html_plain text = true →
  until_lt (text +:+ String (Ascii.ascii_of_nat 60) rest)
    = (text, String (Ascii.ascii_of_nat 60) rest).
Proof.
  induction text as [|c text IH]; intros Hplain; [reflexivity |].
  simpl in Hplain. apply andb_true_iff in Hplain as [Hc Hplain].
  change (until_lt (String c (text +:+ String (Ascii.ascii_of_nat 60) rest))
          = (String c text, String (Ascii.ascii_of_nat 60) rest)).
  simpl. rewrite (IH Hplain).
  unfold html_plain_char in Hc.
  apply andb_true_iff in Hc as [[[Hlt _]%andb_true_iff _]%andb_true_iff _].
  apply negb_true_iff in Hlt. by rewrite Hlt.
Qed.

Lemma close_span_lt (rest : string) :
  close_span +:+ rest = String (Ascii.ascii_of_nat 60) ("/span>" +:+ nl +:+ rest).
Proof. reflexivity. Qed.

Lemma read_span_exact (cls text rest : string) :
  html_plain text = true →
  read_span cls (open_span cls +:+ text +:+ close_span +:+ rest)
    = Some ({| child_class := cls; child_text := text |}, rest).
Proof.
  intros Hplain. unfold read_span. rewrite strip_app.
  cbv beta iota delta [mbind option_bind].
  rewrite close_span_lt, (until_lt_plain _ _ Hplain), <- close_span_lt.
  by rewrite strip_app.
Qed.

Lemma entry_parser_exact : parser_exact entry_parser.
Proof.
  intros rank label likes Hrank Hlabel Hlikes.
  unfold innerHTML_children, entry_parser, entry_markup.
  rewrite strip_app. cbv beta iota delta [mbind option_bind].
  rewrite (read_span_exact _ _ _ Hrank).
  rewrite (read_span_exact _ _ _ Hlabel).
  rewrite (read_span_exact _ _ _ Hlikes).
  reflexivity.
Defined.

(** ** The loader *)

(** C9, as stated, fails: an entry whose username is an object with a
    member [toString] of its own makes the template raise; the loader
    has cleared the list and renders no item for the entry. *)
Lemma unprintable_entry_counterexample :
  ¬ one_item_per_entry (H := entry_parser) (week_server [odd_entry])
      week_page [odd_entry].
Proof. unfold one_item_per_entry. vm_compute. discriminate. Qed.

(** C9, amended: when the request for the ranking of the selected period
    is answered by a list of entries whose [username] and [car_name] are
    strings without markup characters and whose [likes] is an integer,
    the loader makes exactly that request, drops what was rendered
    before and leaves one item per entry in response order: position
    [i] shows the rank [i + 1], the label "username / car_name" and the
    heart followed by the like count in decimal, and only position 0
    carries the class [rank-1]. *)
Theorem ranking_rendered `{HtmlParser} (fetch : string → fetch_outcome)
    (pg : ranking_page) (status : Z) (entries : list entry)
    (items : list jsval) :
  parser_exact H →
  fetch ("/ranking?period=" +:+ period_value pg)
    = Response status (Some (JArr items)) →
  Forall2 payload_of entries items → Forall plain_names entries →
  loadRanking fetch pg
    = ({| period_value := period_value pg;
          ranking_list := imap shown_item entries |},
       [Fetch ("/ranking?period=" +:+ period_value pg)], true).
Proof.
  intros Hexact Hfetch Hitems Hplain. unfold loadRanking.
  rewrite Hfetch. simpl.
  by rewrite (forEach_shown entries items Hexact Hitems Hplain 0 []).
Qed.

Lemma sample_payloads : Forall2 payload_of sample_entries sample_ranking.
Proof. repeat constructor; by eexists. Defined.

Lemma sample_names_plain : Forall plain_names sample_entries.
Proof. repeat constructor. Defined.

Lemma ranking_rendered_witness :
  loadRanking (H := entry_parser) (week_server sample_ranking) week_page
  = ({| period_value := "week";
        ranking_list :=
          [ {| li_classList := ["ranking-item"; "rank-1"];
               li_children :=
                 [ {| child_class := "rank-no"; child_text := "1" |};
                   {| child_class := "rank-name"; child_text := "a / X" |};
                   {| child_class := "rank-like"; child_text := "❤️ 10" |} ] |};
            {| li_classList := ["ranking-item"];
               li_children :=
                 [ {| child_class := "rank-no"; child_text := "2" |};
                   {| child_class := "rank-name"; child_text := "b / Y" |};
                   {| child_class := "rank-like"; child_text := "❤️ 5" |} ] |} ] |},
     [Fetch "/ranking?period=week"], true).
Proof.
  exact (ranking_rendered (H := entry_parser) (week_server sample_ranking)
           week_page 200 sample_entries sample_ranking
           entry_parser_exact eq_refl sample_payloads sample_names_plain).
Defined.

End RankingFacts.

(* ===================================================================== *)
(** * Like scripts: what the marks and the display depend on *)
(* ===================================================================== *)

Lemma fmap_alter_same {A B : Type} (f : A → B) (g : A → A) (i : nat)
    (l : list A) :
  (∀ x, f (g x) = f x) → f <$> alter g i l = f <$> l.
Proof.
  intros Hfg. revert i. induction l as [|x l IH]; intros [|i]; simpl;
    try reflexivity.
  - by rewrite Hfg.
  - f_equal. apply IH.
Qed.

Lemma fmap_eq_lookup {A B : Type} (f : A → B) (l k : list A) (i : nat) :
  f <$> l = f <$> k → f <$> (l !! i) = f <$> (k !! i).
Proof. intros H. by rewrite <- !list_lookup_fmap, H. Qed.

(** The [finally] blocks do not touch what the user sees of a button. *)
Lemma display_unmark (v : script) (b : element) :
  display (unmark v b) = display b.
Proof.
  destruct v; unfold display; simpl; try reflexivity;
    by rewrite contains_remove_other.
Qed.

Lemma marks_on_mark (v : script) (b : element) : marks_on v (mark v b) = true.
Proof.
  destruct v; unfold marks_on; simpl; try reflexivity;
    by rewrite contains_add_same.
Qed.

Lemma marks_off_unmark (v : script) (b : element) :
  marks_off v (unmark v b) = true.
Proof.
  destruct v; unfold marks_off; simpl; try reflexivity;
    by rewrite contains_remove_same.
Qed.

(** ** The update routines *)

Lemma updated_no_count (liked : bool) (count : string) (b : element) :
  like_count b = None → updated liked count b = half_updated liked b.
Proof.
  intros Hc. destruct b. simpl in Hc. subst. reflexivity.
Qed.

(** A count with a string form: each routine writes the like state and
    the count, and returns. *)
Lemma show_complete (liked likes : jsval) (count : string) (b : element) :
  js_String likes = Some count →
  Part000.show liked likes b = Some (updated (truthy liked) count b).
Proof.
  intros Hs. unfold Part000.show. rewrite Hs.
  destruct (like_count b) eqn:Hc; simpl; [reflexivity |].
  by rewrite updated_no_count.
Qed.

Lemma update_button_complete (liked likes : jsval) (count : string)
    (b : element) :
  js_String likes = Some count →
  Part002.update_button liked likes b = (updated (truthy liked) count b, true).
Proof.
  intros Hs. unfold Part002.update_button. simpl. rewrite Hs.
  destruct (like_count b) eqn:Hc; [reflexivity |].
  by rewrite updated_no_count.
Qed.

Lemma setLikeBtnState_complete (liked likes : jsval) (count : string)
    (b : element) :
  js_String likes = Some count → is_defined likes = true →
  Part001.setLikeBtnState liked likes b
    = (updated (truthy liked) count b, true).
Proof.
  intros Hs Hdef. unfold Part001.setLikeBtnState. simpl. rewrite Hs, Hdef.
  destruct (like_count b) eqn:Hc; [reflexivity |].
  by rewrite updated_no_count.
Qed.

(** Whatever the count, what a routine leaves is a write of the like
    state, of the count, or of both. *)
Lemma show_written (liked likes : jsval) (b e : element) :
  Part000.show liked likes b = Some e → written b e.
Proof.
  unfold Part000.show. destruct (like_count b); simpl.
  - destruct (js_String likes) as [count|]; simpl; [| done].
    intros [= <-].
    apply (written_state (truthy liked)), written_count, written_none.
  - intros [= <-]. apply (written_state (truthy liked)), written_none.
Qed.

Lemma update_button_written (liked likes : jsval) (b : element) :
  written b (Part002.update_button liked likes b).1.
Proof.
  unfold Part002.update_button. simpl.
  destruct (like_count b); [destruct (js_String likes) |]; simpl;
    try apply written_count;
    apply (written_state (truthy liked)), written_none.
Qed.

Lemma setLikeBtnState_written (liked likes : jsval) (b : element) :
  written b (Part001.setLikeBtnState liked likes b).1.
Proof.
  assert (Hhalf : written b
            (set_icon_text (if truthy liked then "❤️" else "🤍")
               (set_aria_pressed (if truthy liked then "true" else "false")
                  (set_data_liked (if truthy liked then "1" else "0")
                     (set_classList
                        (classList_toggle "active" (truthy liked)) b)))))
    by apply (written_state (truthy liked)), written_none.
  unfold Part001.setLikeBtnState. simpl.
  destruct (like_count b); [destruct (is_defined likes);
                            [destruct (js_String likes) |] |]; simpl;
    try apply written_count; exact Hhalf.
Qed.

Lemma written_trans (a b c : element) :
  written a b → written b c → written a c.
Proof.
  intros Hab Hbc. induction Hbc; [done | |].
  - by apply written_state, IHHbc.
  - by apply written_count, IHHbc.
Qed.

(** What neither kind of write changes is the same before and after. *)
Lemma written_keeps {B : Type} (f : element → B) (b b' : element) :
  (∀ liked x, f (half_updated liked x) = f x) →
  (∀ count x, f (set_count_text count x) = f x) →
  written b b' → f b' = f b.
Proof.
  intros Hstate Hcount. induction 1 as [|liked b b' _ IH|count b b' _ IH];
    [reflexivity | by rewrite Hstate | by rewrite Hcount].
Qed.

Lemma written_page_refl (p : page) : Forall2 written p p.
Proof. induction p; constructor; [apply written_none | done]. Qed.

Lemma written_page_insert (p p1 : page) (i : nat) (b e : element) :
  Forall2 written p p1 → p1 !! i = Some b → written b e →
  Forall2 written p (<[i := e]> p1).
Proof.
  intros Hp. revert i. induction Hp as [|x y p p1 Hxy Hp IH]; intros i;
    [done |].
  destruct i as [|i]; simpl.
  - intros [= ->] He. constructor; [by eapply written_trans | done].
  - intros Hb He. constructor; [done | by apply IH].
Qed.

Lemma written_page_keeps {B : Type} (f : element → B) (p p1 : page) :
  (∀ liked x, f (half_updated liked x) = f x) →
  (∀ count x, f (set_count_text count x) = f x) →
  Forall2 written p p1 → f <$> p1 = f <$> p.
Proof.
  intros Hstate Hcount. induction 1 as [|x y p p1 Hxy _ IH]; [done |].
  rewrite !fmap_cons. by rewrite IH, (written_keeps f x y Hstate Hcount Hxy).
Qed.

Lemma forEach_written (liked likes : jsval) (buttons : list nat)
    (p p1 : page) :
  Forall2 written p p1 →
  Forall2 written p (Part002.forEach liked likes buttons p1).1.
Proof.
  revert p1. induction buttons as [|btn buttons IH]; intros p1 Hp; [done |].
  simpl. destruct (p1 !! btn) as [b|] eqn:Hb; [| by apply IH].
  pose proof (update_button_written liked likes b) as Hw.
  destruct (Part002.update_button liked likes b) as [e returned].
  assert (Hp' : Forall2 written p (<[btn := e]> p1))
    by by eapply written_page_insert.
  destruct returned; [by apply IH | done].
Qed.

(** The loop leaves the elements it was not given as they were. *)
Lemma forEach_lookup_other (liked likes : jsval) (buttons : list nat)
    (p : page) (j : nat) :
  j ∉ buttons → (Part002.forEach liked likes buttons p).1 !! j = p !! j.
Proof.
  revert p. induction buttons as [|btn buttons IH]; intros p Hj; [done |].
  apply not_elem_of_cons in Hj as [Hne Hj]. simpl.
  destruct (p !! btn) as [b|]; [| by apply IH].
  destruct (Part002.update_button liked likes b) as [e returned].
  destruct returned; simpl.
  - rewrite IH by done. by apply list_lookup_insert_ne.
  - by apply list_lookup_insert_ne.
Qed.

Lemma insert_alter {A : Type} (f : A → A) (i : nat) (l : list A) (x : A) :
  l !! i = Some x → <[i := f x]> l = alter f i l.
Proof.
  revert i. induction l as [|y l IH]; intros [|i]; simpl; try done.
  - by intros [= ->].
  - intros Hx. f_equal. by apply IH.
Qed.

Lemma alter_absent {A : Type} (f : A → A) (i : nat) (l : list A) :
  l !! i = None → alter f i l = l.
Proof.
  revert i. induction l as [|y l IH]; intros [|i]; simpl; try done.
  intros Hx. f_equal. by apply IH.
Qed.

(** With a count that has a string form the loop updates every button
    it was given. *)
Lemma forEach_complete (liked likes : jsval) (count : string)
    (buttons : list nat) (p : page) :
  js_String likes = Some count →
  Part002.forEach liked likes buttons p
    = (foldl (λ q i, alter (updated (truthy liked) count) i q) p buttons,
       true).
Proof.
  intros Hs. revert p. induction buttons as [|btn buttons IH]; intros p;
    [done |].
  simpl. destruct (p !! btn) as [b|] eqn:Hb.
  - rewrite (update_button_complete liked likes count b Hs).
    by rewrite IH, (insert_alter _ _ _ _ Hb).
  - by rewrite IH, alter_absent.
Qed.

Lemma marks_half_updated (v : script) (liked : bool) (b : element) :
  marks v (half_updated liked b) = marks v b.
Proof.
  destruct v; simpl; try reflexivity; by rewrite contains_toggle_other.
Qed.

Lemma marks_set_count_text (v : script) (count : string) (b : element) :
  marks v (set_count_text count b) = marks v b.
Proof. by destruct v. Qed.

Lemma in_flight_marks (v : script) (b : element) :
  in_flight v b = hd false (marks v b).
Proof. by destruct v. Qed.

Lemma marks_on_in_flight (v : script) (b : element) :
  marks_on v b = true → in_flight v b = true.
Proof.
  rewrite in_flight_marks. unfold marks_on.
  destruct v; simpl; intros H; repeat (apply andb_true_iff in H as [H ?]);
    assumption.
Qed.

Lemma marks_off_in_flight (v : script) (b : element) :
  marks_off v b = true → in_flight v b = false.
Proof.
  rewrite in_flight_marks. unfold marks_off.
  destruct v; simpl; intros H; repeat (apply andb_true_iff in H as [H ?]);
    by apply negb_true_iff.
Qed.

(** ** The shape of a settled handler *)

(** What the response handling of each script leaves of the page. *)
Lemma click_try_page (rq : request) (p p1 : page) (o : fetch_outcome)
    (out : list effect) :
  Part000.click_try rq p o = Some (p1, out) →
  p1 = p ∨
  ∃ b e, p !! rq_btn rq = Some b ∧ written b e ∧ p1 = <[rq_btn rq := e]> p.
Proof.
  unfold Part000.click_try. intros Htry.
  destruct o as [|status body]; [done |].
  destruct (status =? 401)%Z; [left; congruence |].
  destruct (negb (res_ok status)); [left; congruence |].
  destruct body as [data|]; simpl in Htry; [| done].
  destruct (get_prop data "ok") as [ok|]; simpl in Htry; [| done].
  destruct (negb (truthy ok)).
  - destruct (get_prop data "error") as [error|]; simpl in Htry; [| done].
    destruct (js_String _); simpl in Htry; [left; congruence | done].
  - destruct (get_prop data "likes") as [likes|]; simpl in Htry; [| done].
    destruct (get_prop data "liked") as [liked|]; simpl in Htry; [| done].
    destruct (p !! rq_btn rq) as [b|] eqn:Hb; [| left; congruence].
    destruct (Part000.show liked likes b) as [e|] eqn:Hshow;
      simpl in Htry; [| done].
    injection Htry as <- <-. right. exists b, e.
    split_and!; [done | by eapply show_written | done].
Qed.

Lemma handle_try_page (rq : request) (p : page) (o : fetch_outcome) :
  (Part001.handle_try rq p o).1 = p ∨
  ∃ b e, p !! rq_btn rq = Some b ∧ written b e ∧
         (Part001.handle_try rq p o).1 = <[rq_btn rq := e]> p.
Proof.
  unfold Part001.handle_try.
  destruct (Part001.postJson o) as [r|]; [| by left].
  destruct (negb (Part001.r_ok r) || _ || _).
  { destruct (truthy _ && _); by left. }
  destruct (p !! rq_btn rq) as [b|] eqn:Hb; [| by left].
  pose proof (setLikeBtnState_written
                (Part001.field (Part001.r_data r) "liked")
                (Part001.field (Part001.r_data r) "likes") b) as Hw.
  destruct (Part001.setLikeBtnState _ _ b) as [e returned].
  right. by exists b, e.
Qed.

Lemma toggleLike_try_page `{SelectorEngine} (rq : request) (p : page)
    (o : fetch_outcome) :
  (Part002.toggleLike_try rq p o).1 = p ∨
  ∃ liked likes buttons,
    querySelectorAll_like (rq_id rq) p = Some buttons ∧
    (Part002.toggleLike_try rq p o).1
      = (Part002.forEach liked likes buttons p).1.
Proof.
  unfold Part002.toggleLike_try.
  destruct o as [|status body]; [by left |].
  destruct (status =? 401)%Z; [by left |].
  destruct (negb (res_ok status)); [by left |].
  destruct body as [data|]; [| by left].
  destruct (get_prop data "ok") as [ok|]; [| by left].
  destruct (negb (truthy ok));
    [destruct (get_prop data "error"); by left |].
  destruct (get_prop data "liked") as [liked|]; [| by left].
  destruct (get_prop data "likes") as [likes|]; [| by left].
  unfold Part002.updateButtons.
  destruct (querySelectorAll_like (rq_id rq) p) as [buttons|] eqn:Hsel;
    [| by left].
  right. exists liked, likes, buttons. split; [done |].
  by destruct (Part002.forEach liked likes buttons p).
Qed.

(** Whatever the response, the page after the handler is the page the
    response handling left, with the clicked button unmarked; the
    response handling only wrote like states and counts. *)
Lemma handler_settle_written `{SelectorEngine} (v : script) (rq : request)
    (p : page) (o : fetch_outcome) :
  ∃ p1, (handler_settle v rq p o).1 = alter (unmark v) (rq_btn rq) p1 ∧
        Forall2 written p p1.
Proof.
  destruct v; simpl.
  - unfold Part000.click_settle, Part000.click_finally.
    destruct (Part000.click_try rq p o) as [[p1 out]|] eqn:Htry; simpl;
      [| exists p; split; [done | apply written_page_refl]].
    exists p1. split; [reflexivity |].
    destruct (click_try_page rq p p1 o out Htry)
      as [->|(b & e & Hb & Hw & ->)]; [apply written_page_refl |].
    eapply written_page_insert; [apply written_page_refl | done..].
  - unfold Part001.handle_settle, Part001.handle_finally.
    pose proof (handle_try_page rq p o) as Hpage.
    destruct (Part001.handle_try rq p o) as [p1 surfaced]. simpl in *.
    exists p1. split; [reflexivity |].
    destruct Hpage as [->|(b & e & Hb & Hw & ->)]; [apply written_page_refl |].
    eapply written_page_insert; [apply written_page_refl | done..].
  - unfold Part002.toggleLike_settle, Part002.toggleLike_finally.
    pose proof (toggleLike_try_page rq p o) as Hpage.
    destruct (Part002.toggleLike_try rq p o) as [p1 surfaced]. simpl in *.
    exists p1. split; [reflexivity |].
    destruct Hpage as [->|(liked & likes & buttons & _ & ->)];
      [apply written_page_refl |].
    apply forEach_written, written_page_refl.
Qed.

Lemma handler_settle_finally `{SelectorEngine} (v : script) (rq : request)
    (p : page) (o : fetch_outcome) :
  ∃ p1, (handler_settle v rq p o).1 = alter (unmark v) (rq_btn rq) p1 ∧
        marks v <$> p1 = marks v <$> p.
Proof.
  destruct (handler_settle_written v rq p o) as (p1 & Hp & Hw).
  exists p1. split; [exact Hp |].
  apply written_page_keeps;
    [apply marks_half_updated | apply marks_set_count_text | exact Hw].
Qed.

(** ** The start of a handler *)

Lemma handler_begin_inv (v : script) (e : event) (p p1 : page) (rq : request) :
  handler_begin v e p = Some (p1, rq) →
  ∃ b, aims_at (rq_btn rq) e ∧ p !! rq_btn rq = Some b ∧
       in_flight v b = false ∧ p1 = alter (mark v) (rq_btn rq) p.
Proof.
  unfold aims_at.
  destruct v, e; simpl; try done;
    unfold Part000.click_begin, Part001.handlePostLike_begin,
      Part001.handleCommentLike_begin, Part001.handle_begin,
      Part002.toggleLike_begin;
    destruct (p !! btn) as [b|] eqn:Hb; simpl; try done;
    repeat case_match; try done; intros [= <- <-]; simpl;
    exists b; split_and!; auto; by apply negb_true_iff, negb_involutive.
Qed.

(** The guard: an event aimed at a button whose flag is set starts
    nothing. *)
Lemma handler_begin_busy (v : script) (e : event) (p : page) (btn : nat)
    (b : element) :
  aims_at btn e → p !! btn = Some b → in_flight v b = true →
  handler_begin v e p = None.
Proof.
  intros [->|[->| ->]] Hb Hbusy; destruct v; simpl; try done;
    unfold Part000.click_begin, Part001.handlePostLike_begin,
      Part001.handleCommentLike_begin, Part001.handle_begin,
      Part002.toggleLike_begin;
    rewrite Hb; simpl; simpl in Hbusy; rewrite Hbusy;
    by repeat case_match.
Qed.

Lemma elem_of_delete_NoDup {A : Type} (l : list A) (k : nat) (x y : A) :
  NoDup l → l !! k = Some x → y ∈ delete k l ↔ y ∈ l ∧ y ≠ x.
Proof.
  intros Hnd Hk. rewrite delete_take_drop.
  pose proof (take_drop_middle l k x Hk) as Hsplit.
  assert (Hin : y ∈ l ↔ y ∈ take k l ∨ y = x ∨ y ∈ drop (S k) l).
  { rewrite <- Hsplit at 1. by rewrite elem_of_app, elem_of_cons. }
  rewrite <- Hsplit in Hnd.
  apply NoDup_app in Hnd as (_ & Hl & Hr%NoDup_cons).
  destruct Hr as [Hx _]. specialize (Hl x).
  rewrite elem_of_app, Hin. set_solver.
Qed.

Lemma NoDup_delete {A : Type} (l : list A) (k : nat) :
  NoDup l → NoDup (delete k l).
Proof.
  intros Hnd. eapply sublist_NoDup; [exact Hnd | apply sublist_delete].
Qed.

(** ** The marks follow the requests *)

Lemma marks_lookup (v : script) (p q : page) (i : nat) (b : element) :
  marks v <$> p = marks v <$> q → p !! i = Some b →
  ∃ b', q !! i = Some b' ∧ marks v b' = marks v b.
Proof.
  intros Heq Hb. apply (fmap_eq_lookup _ _ _ i) in Heq.
  rewrite Hb in Heq. destruct (q !! i) as [b'|]; simpl in Heq; [| done].
  exists b'. split; [reflexivity | congruence].
Qed.

Lemma step_marks_follow `{SelectorEngine} (v : script) (s : world) (e : event) :
  marks_follow_requests v s → marks_follow_requests v (step v s e).
Proof.
  intros [Hnd Hmarks].
  assert (Hbegin : ∀ e', (∀ k o, e' ≠ Settle k o) →
            marks_follow_requests v
              match handler_begin v e' (dom s) with
              | None => s
              | Some (p, rq) =>
                  {| dom := p; outstanding := outstanding s ++ [rq];
                     log := log s ++ [Fetch (rq_url rq)] |}
              end).
  { intros e' _. destruct (handler_begin v e' (dom s)) as [[p rq]|] eqn:Hb;
      [| by split].
    apply handler_begin_inv in Hb as (b & _ & Hlook & Hidle & ->).
    assert (Hfree : ¬ pending s (rq_btn rq)).
    { intros Hp. apply (Hmarks _ _ Hlook) in Hp.
      apply marks_on_in_flight in Hp. congruence. }
    unfold marks_follow_requests, pending in *; simpl.
    rewrite fmap_app; simpl. split.
    - apply NoDup_app. split_and!; [done | | apply NoDup_singleton].
      intros x Hx ->%list_elem_of_singleton. done.
    - intros i b'. rewrite list_lookup_alter.
      destruct (decide (rq_btn rq = i)) as [<-|Hne].
      + rewrite Hlook. intros [= <-]. split.
        * intros _. apply marks_on_mark.
        * intros Hn. exfalso. apply Hn. set_solver.
      + intros Hi. destruct (Hmarks _ _ Hi) as [Hon Hoff]. split.
        * intros Hp. apply Hon. set_solver.
        * intros Hn. apply Hoff. set_solver. }
  destruct e as [btn|btn|btn|k o]; try (apply Hbegin; done).
  clear Hbegin. simpl. destruct (outstanding s !! k) as [rq|] eqn:Hk; [| by split].
  destruct (handler_settle_finally v rq (dom s) o) as (p1 & Hp & Hsame).
  destruct (handler_settle v rq (dom s) o) as [p' out]. simpl in Hp. subst p'.
  assert (Hk' : (rq_btn <$> outstanding s) !! k = Some (rq_btn rq))
    by (by rewrite list_lookup_fmap, Hk).
  unfold marks_follow_requests, pending in *; simpl.
  rewrite list_fmap_delete. split; [by apply NoDup_delete |].
  intros i b'. rewrite (elem_of_delete_NoDup _ _ _ _ Hnd Hk').
  rewrite list_lookup_alter.
  destruct (decide (rq_btn rq = i)) as [<-|Hne].
  - destruct (p1 !! rq_btn rq) as [b1|]; simpl; [| done].
    intros [= <-]. split; [naive_solver |].
    intros _. apply marks_off_unmark.
  - intros Hi.
    destruct (marks_lookup v _ _ _ _ Hsame Hi) as (b & Hb & Hm).
    destruct (Hmarks _ _ Hb) as [Hon Hoff].
    unfold marks_on, marks_off in *. rewrite Hm in Hon, Hoff. split.
    + intros [Hp _]. by apply Hon.
    + intros Hn. apply Hoff. naive_solver.
Qed.

Lemma run_marks_follow `{SelectorEngine} (v : script) (es : list event)
    (s : world) :
  marks_follow_requests v s → marks_follow_requests v (run v s es).
Proof.
  revert s. induction es as [|e es IH]; intros s Hs; [exact Hs |].
  simpl. apply IH. by apply step_marks_follow.
Qed.

Lemma quiescent_marks_follow (v : script) (s : world) :
  quiescent v s → marks_follow_requests v s.
Proof.
  intros [Hout Hoff]. unfold marks_follow_requests, pending.
  rewrite Hout. simpl. split; [apply NoDup_nil_2 |].
  intros i b Hb. split; [by intros ?%elem_of_nil | intros _; eauto].
Qed.

(* ===================================================================== *)
(** * Like scripts: one request per button at a time *)
(* ===================================================================== *)

Lemma aims_at_step `{SelectorEngine} (v : script) (s : world) (e : event)
    (btn : nat) :
  aims_at btn e →
  step v s e =
    match handler_begin v e (dom s) with
    | None => s
    | Some (p, rq) =>
        {| dom := p; outstanding := outstanding s ++ [rq];
           log := log s ++ [Fetch (rq_url rq)] |}
    end.
Proof. by intros [->|[->| ->]]. Qed.

Lemma aims_at_same (e : event) (i j : nat) : aims_at i e → aims_at j e → i = j.
Proof. unfold aims_at. intros [->|[->| ->]] [?|[?|?]]; congruence. Qed.

(** C5: once an event aimed at a button has issued its request, every
    further click (or submit) aimed at that button while the request is
    outstanding is dropped by the guard: no request is sent and neither
    the page nor the log nor the outstanding requests change, so the log
    holds exactly the one request. *)
Theorem repeated_clicks_one_request `{SelectorEngine} (v : script)
    (s : world) (e : event) (btn : nat) (p1 : page) (rq : request) :
  aims_at btn e →
  handler_begin v e (dom s) = Some (p1, rq) →
  log (step v s e) = log s ++ [Fetch (rq_url rq)] ∧
  outstanding (step v s e) = outstanding s ++ [rq] ∧
  ∀ es, Forall (aims_at btn) es → run v (step v s e) es = step v s e.
Proof.
  intros Haim Hbegin. rewrite (aims_at_step v s e btn Haim), Hbegin. simpl.
  split_and!; [reflexivity | reflexivity |].
  apply handler_begin_inv in Hbegin as (b & Haim' & Hb & _ & ->).
  rewrite (aims_at_same e _ _ Haim' Haim) in *. clear Haim'.
  induction 1 as [|e' es Haim' _ IH]; [reflexivity |].
  simpl. rewrite (aims_at_step _ _ e' btn Haim'); simpl.
  rewrite (handler_begin_busy v e' _ btn (mark v b) Haim'); [exact IH | |].
  - by rewrite list_lookup_alter_eq, Hb.
  - apply marks_on_in_flight, marks_on_mark.
Qed.

Lemma repeated_clicks_one_request_witness :
  log (run (H := strict_engine) Script000 fresh_world
         [ClickLike 0; ClickLike 0; ClickLike 0; ClickLike 0])
    = [Fetch "/api/like/42"].
Proof.
  pose proof (repeated_clicks_one_request (H := strict_engine) Script000
                fresh_world (ClickLike 0) 0
                (alter (mark Script000) 0 two_cards) first_card_request
                (or_introl eq_refl) eq_refl) as (Hlog & _ & Hdrop).
  change (run (H := strict_engine) Script000 fresh_world
            [ClickLike 0; ClickLike 0; ClickLike 0; ClickLike 0])
    with (run (H := strict_engine) Script000
            (step (H := strict_engine) Script000 fresh_world (ClickLike 0))
            [ClickLike 0; ClickLike 0; ClickLike 0]).
  rewrite Hdrop; [exact Hlog |].
  repeat constructor.
Defined.

(* ===================================================================== *)
(** * Like scripts: the marks last as long as the request *)
(* ===================================================================== *)

(** C6: a handler that issues a request has set the in-flight flag and
    the disabled or loading look on its button by the time the request
    is issued; when the request settles, however it ends, the handler
    leaves the button with all of them cleared; and on a page that
    started with nothing in flight, after any sequence of clicks, submits
    and settling requests, a button carries the marks exactly while a
    request of it is outstanding. *)
Theorem marks_exactly_while_outstanding `{SelectorEngine} (v : script) :
  (∀ e p p1 rq, handler_begin v e p = Some (p1, rq) →
     ∃ b, p1 !! rq_btn rq = Some b ∧ marks_on v b = true) ∧
  (∀ rq p o b, (handler_settle v rq p o).1 !! rq_btn rq = Some b →
     marks_off v b = true) ∧
  (∀ s es, quiescent v s → marks_follow_requests v (run v s es)).
Proof.
  split_and!.
  - intros e p p1 rq (b & _ & Hb & _ & ->)%handler_begin_inv.
    exists (mark v b). split; [by rewrite list_lookup_alter_eq, Hb |].
    apply marks_on_mark.
  - intros rq p o b.
    destruct (handler_settle_finally v rq p o) as (p1 & -> & _).
    rewrite list_lookup_alter_eq.
    destruct (p1 !! rq_btn rq); simpl; [| done].
    intros [= <-]. apply marks_off_unmark.
  - intros s es Hs. by apply run_marks_follow, quiescent_marks_follow.
Qed.

Lemma fresh_world_quiescent (v : script) : quiescent v fresh_world.
Proof.
  split; [reflexivity |].
  intros [|[|i]] b; simpl; intros [= <-]; by destruct v.
Defined.

Lemma marks_exactly_while_outstanding_witness :
  marks_follow_requests Script002
    (run (H := strict_engine) Script002 fresh_world
       [ClickLike 0; ClickLike 1; ClickLike 0;
        Settle 0 (Response 200 (Some liked_payload)); SubmitLikeForm 1]).
Proof.
  apply (proj2 (proj2 (marks_exactly_while_outstanding
                         (H := strict_engine) Script002))).
  apply fresh_world_quiescent.
Defined.

(* ===================================================================== *)
(** * Like scripts: responses that leave the display alone *)
(* ===================================================================== *)

Lemma display_finally (v : script) (i : nat) (p : page) :
  display <$> alter (unmark v) i p = display <$> p.
Proof. apply fmap_alter_same, display_unmark. Qed.

Lemma get_prop_field (data : jsval) (k k' : string) (x : jsval) :
  get_prop data k = Some x → get_prop data k' = Some (Part001.field data k').
Proof. unfold Part001.field. destruct data; simpl; try done. Qed.

Lemma not_true_of_falsy (ok : jsval) : truthy ok = false → is_true ok = false.
Proof. by destruct ok as [| |[|]| | | |]. Qed.

Lemma res_ok_not_401 (status : Z) :
  res_ok status = true → (status =? 401)%Z = false.
Proof. unfold res_ok. lia. Qed.

(** C3, as stated, fails: in the posts + comments script a 401 whose
    body carries no "login_required" error surfaces nothing. *)
Lemma unauthorized_silent_counterexample :
  ¬ login_required_handled (H := strict_engine) Script001
      first_card_request loading_cards None.
Proof.
  unfold login_required_handled, login_signal. simpl.
  intros [[Hin|Hin] _]; by apply elem_of_nil in Hin.
Qed.

(** C3, amended: a response with status 401 changes nothing the user
    sees of any button.  Both revisions of like.js alert the login
    notice; the posts + comments script redirects to the login page
    exactly when the payload's error is "login_required", and otherwise
    surfaces nothing. *)
Theorem unauthorized_response `{SelectorEngine} (v : script) (rq : request)
    (p : page) (body : option jsval) :
  display <$> (handler_settle v rq p (Response 401 body)).1 = display <$> p ∧
  (handler_settle v rq p (Response 401 body)).2 =
    match v with
    | Script001 => if login_payload body then [SetLocation "/login"] else []
    | _ => [Alert (JStr "ログインしてね")]
    end.
Proof.
  destruct v; simpl.
  - split; [apply (display_finally Script000) | reflexivity].
  - unfold Part001.handle_settle, Part001.handle_try; simpl.
    destruct body as [data|]; simpl.
    + destruct (truthy data && _); simpl;
        (split; [apply (display_finally Script001) | reflexivity]).
    + split; [apply (display_finally Script001) | reflexivity].
  - split; [apply (display_finally Script002) | reflexivity].
Qed.

(** C4, as stated, fails: the posts + comments script surfaces no
    notice for a failed request. *)
Lemma failure_silent_counterexample :
  ¬ failure_handled (H := strict_engine) Script001
      first_card_request loading_cards (Response 500 None).
Proof.
  unfold failure_handled. simpl.
  intros [[msg Hin] _]. by apply elem_of_nil in Hin.
Qed.

(** C4, amended: a status that is neither 2xx nor 401, an ok response
    whose payload has a false [ok] flag, and a network or parse
    exception all leave what the user sees of every button unchanged.
    Both revisions of like.js then alert one notice: the fixed API
    failure text, the payload's error message when it has one (else the
    fixed fallback), or the fixed connectivity text; an error message
    that has no string form makes [alert] raise, and the notice is the
    connectivity text.  The posts + comments script alerts nothing. *)
Theorem failed_toggle `{SelectorEngine} (v : script) (rq : request)
    (p : page) (o : fetch_outcome) (f : failure) :
  classify o = Some f →
  display <$> (handler_settle v rq p o).1 = display <$> p ∧
  match v with
  | Script001 => ∀ msg, Alert msg ∉ (handler_settle v rq p o).2
  | _ => (handler_settle v rq p o).2
         = [Alert (if convertible (notice f) then notice f
                   else JStr "通信エラー")]
  end.
Proof.
  intros Hc. destruct o as [|status body]; simpl in Hc.
  { injection Hc as <-. destruct v; simpl.
    - split; [apply (display_finally Script000) | reflexivity].
    - split; [apply (display_finally Script001) |].
      intros msg [=]%list_elem_of_singleton.
    - split; [apply (display_finally Script002) | reflexivity]. }
  destruct (status =? 401)%Z eqn:H401; [done |].
  destruct (res_ok status) eqn:Hok; simpl in Hc.
  - destruct body as [data|].
    + destruct (get_prop data "ok") as [ok|] eqn:Hget; [| done].
      destruct (truthy ok) eqn:Htruthy; [done |]. injection Hc as <-.
      pose proof (get_prop_field data "ok" "error" ok Hget) as Herr.
      change (notice (PayloadFailure (Part001.field data "error")))
        with (js_or (Part001.field data "error") (JStr "いいね失敗")).
      destruct v; simpl.
      * unfold Part000.click_settle, Part000.click_try.
        rewrite H401, Hok; simpl. rewrite Hget; simpl.
        rewrite Htruthy; simpl. rewrite Herr; simpl.
        destruct (js_String_cases
                    (js_or (Part001.field data "error") (JStr "いいね失敗")))
          as [(s & -> & ->)|[-> ->]]; simpl;
          (split; [apply (display_finally Script000) | reflexivity]).
      * unfold Part001.handle_settle, Part001.handle_try; simpl.
        rewrite Hok; simpl.
        assert (Part001.field data "ok" = ok) as ->
          by (unfold Part001.field; by rewrite Hget).
        rewrite (not_true_of_falsy ok Htruthy), orb_true_r; simpl.
        destruct (truthy data && _); simpl;
          (split; [apply (display_finally Script001) |]).
        -- intros msg [=]%list_elem_of_singleton.
        -- intros msg []%elem_of_nil.
      * unfold Part002.toggleLike_settle, Part002.toggleLike_try.
        rewrite H401, Hok; simpl. rewrite Hget; simpl.
        rewrite Htruthy; simpl. rewrite Herr; simpl.
        destruct (js_String_cases
                    (js_or (Part001.field data "error") (JStr "いいね失敗")))
          as [(s & -> & ->)|[-> ->]]; simpl;
          (split; [apply (display_finally Script002) | reflexivity]).
    + injection Hc as <-. destruct v; simpl.
      * unfold Part000.click_settle, Part000.click_try.
        rewrite H401, Hok; simpl.
        split; [apply (display_finally Script000) | reflexivity].
      * unfold Part001.handle_settle, Part001.handle_try; simpl.
        rewrite Hok; simpl.
        split; [apply (display_finally Script001) |].
        intros msg []%elem_of_nil.
      * unfold Part002.toggleLike_settle, Part002.toggleLike_try.
        rewrite H401, Hok; simpl.
        split; [apply (display_finally Script002) | reflexivity].
  - injection Hc as <-. destruct v; simpl.
    + unfold Part000.click_settle, Part000.click_try.
      rewrite H401, Hok; simpl.
      split; [apply (display_finally Script000) | reflexivity].
    + unfold Part001.handle_settle, Part001.handle_try; simpl.
      rewrite Hok; simpl.
      destruct (truthy _ && _); simpl;
        (split; [apply (display_finally Script001) |]).
      * intros msg [=]%list_elem_of_singleton.
      * intros msg []%elem_of_nil.
    + unfold Part002.toggleLike_settle, Part002.toggleLike_try.
      rewrite H401, Hok; simpl.
      split; [apply (display_finally Script002) | reflexivity].
Qed.

Lemma failed_toggle_witness :
  (handler_settle (H := strict_engine) Script002 first_card_request
     (alter (mark Script002) 0 two_cards)
     (Response 200 (Some refused_payload))).2
    = [Alert (JStr "post not found")] ∧
  (handler_settle (H := strict_engine) Script000 first_card_request
     (alter (mark Script000) 0 two_cards) (Response 503 None)).2
    = [Alert (JStr "いいね失敗（APIエラー）")] ∧
  (handler_settle (H := strict_engine) Script000 first_card_request
     (alter (mark Script000) 0 two_cards)
     (Response 200 (Some odd_error_payload))).2
    = [Alert (JStr "通信エラー")].
Proof.
  split_and!.
  - exact (proj2 (failed_toggle (H := strict_engine) Script002
                    first_card_request (alter (mark Script002) 0 two_cards)
                    (Response 200 (Some refused_payload))
                    (PayloadFailure (JStr "post not found")) eq_refl)).
  - exact (proj2 (failed_toggle (H := strict_engine) Script000
                    first_card_request (alter (mark Script000) 0 two_cards)
                    (Response 503 None) HttpFailure eq_refl)).
  - exact (proj2 (failed_toggle (H := strict_engine) Script000
                    first_card_request (alter (mark Script000) 0 two_cards)
                    (Response 200 (Some odd_error_payload))
                    (PayloadFailure (JObj [("toString", JNull)])) eq_refl)).
Defined.

(** C10, as stated, fails: after the helper has returned, the [finally]
    block of the handler still removes the class [is-loading] from the
    button. *)
Lemma finally_mutates_counterexample :
  ¬ no_dom_mutation first_card_request loading_cards (Response 200 None).
Proof. unfold no_dom_mutation. vm_compute. discriminate. Qed.

(** C10, amended: in the posts + comments script a body that is absent
    or not valid JSON does not make the request helper raise; the helper
    returns a result whose data is [null], and the handler then surfaces
    nothing and changes nothing the user sees of any button: its only
    DOM mutation is the [finally] block removing the class [is-loading]
    from the clicked button. *)
Theorem unparsable_body_ignored (rq : request) (p : page) (status : Z) :
  Part001.postJson (Response status None)
    = Some {| Part001.r_ok := res_ok status; Part001.r_status := status;
              Part001.r_data := JNull |} ∧
  Part001.handle_settle rq p (Response status None)
    = (alter (set_classList (classList_remove "is-loading")) (rq_btn rq) p, []) ∧
  display <$> (Part001.handle_settle rq p (Response status None)).1
    = display <$> p.
Proof.
  split_and!; [reflexivity | |].
  - unfold Part001.handle_settle, Part001.handle_try; simpl.
    by rewrite orb_true_r.
  - unfold Part001.handle_settle, Part001.handle_try; simpl.
    rewrite orb_true_r; simpl. apply (display_finally Script001).
Qed.

(* ===================================================================== *)
(** * Like scripts: a successful response *)
(* ===================================================================== *)

Lemma switched_display (liked : bool) (count : option string)
    (b a1 a2 : element) :
  display a1 = display a2 → switched_to liked count b a1 →
  switched_to liked count b a2.
Proof. unfold display, switched_to. intros [= _ -> -> -> ->]. done. Qed.

Lemma switched_updated (liked : bool) (count : string) (b : element) :
  switched_to liked (Some count) b (updated liked count b).
Proof.
  unfold switched_to, heart; simpl. rewrite contains_toggle_same.
  by destruct (like_icon b), (like_count b).
Qed.

(** [positions_from] lists the matching elements, each once. *)
Lemma elem_of_positions_from (id : string) (p : page) (i j : nat) :
  j ∈ positions_from i id p ↔
  ∃ b, (i ≤ j)%nat ∧ p !! (j - i) = Some b ∧ matches_like id b = true.
Proof.
  revert i. induction p as [|b p IH]; intros i; simpl.
  - split; [by intros ?%elem_of_nil | by intros (? & _ & [=] & _)].
  - assert (Hrest : j ∈ positions_from (S i) id p ↔
              ∃ b', (i < j)%nat ∧ (b :: p) !! (j - i) = Some b'
                    ∧ matches_like id b' = true).
    { rewrite IH. split; intros (b' & Hle & Hb' & Hm); exists b';
        (split_and!; [lia | | done]).
      - by replace (j - i) with (S (j - S i)) by lia.
      - by replace (j - i) with (S (j - S i)) in Hb' by lia. }
    destruct (matches_like id b) eqn:Hm.
    + rewrite elem_of_cons, Hrest. split.
      * intros [->|(b' & ? & ? & ?)]; [| exists b'; split_and!; [lia | done..]].
        exists b. rewrite Nat.sub_diag. done.
      * intros (b' & Hle & Hb' & Hm').
        destruct (decide (j = i)) as [->|]; [by left | right].
        exists b'. split_and!; [lia | done..].
    + rewrite Hrest. split.
      * intros (b' & ? & ? & ?). exists b'. split_and!; [lia | done..].
      * intros (b' & Hle & Hb' & Hm').
        destruct (decide (j = i)) as [->|].
        -- rewrite Nat.sub_diag in Hb'. simpl in Hb'. congruence.
        -- exists b'. split_and!; [lia | done..].
Qed.

Lemma NoDup_positions_from (id : string) (p : page) (i : nat) :
  NoDup (positions_from i id p).
Proof.
  revert i. induction p as [|b p IH]; intros i; simpl; [apply NoDup_nil_2 |].
  destruct (matches_like id b); [| apply IH].
  apply NoDup_cons. split; [| apply IH].
  rewrite elem_of_positions_from. intros (_ & Hle & _). lia.
Qed.

Lemma foldl_alter_lookup {A : Type} (f : A → A) (idxs : list nat)
    (l : list A) (j : nat) :
  NoDup idxs →
  foldl (λ q i, alter f i q) l idxs !! j =
    if decide (j ∈ idxs) then f <$> l !! j else l !! j.
Proof.
  intros Hnd. revert l. induction Hnd as [|i idxs Hi Hnd IH]; intros l; simpl.
  - reflexivity.
  - rewrite IH. destruct (decide (j = i)) as [->|Hne].
    + rewrite decide_False by done.
      rewrite decide_True by apply list_elem_of_here.
      apply list_lookup_alter_eq.
    + rewrite list_lookup_alter_ne by done.
      destruct (decide (j ∈ idxs)).
      * by rewrite decide_True by by apply list_elem_of_further.
      * rewrite decide_False; [done |]. rewrite elem_of_cons. naive_solver.
Qed.

Lemma strict_engine_exact : engine_exact strict_engine.
Proof.
  intros id p Hplain. unfold querySelectorAll_like, strict_engine.
  rewrite Hplain. reflexivity.
Defined.

(** C1, as stated, fails: the first revision of like.js updates the
    clicked button only; a second card of the same post keeps the old
    state. *)
Lemma second_card_stale_counterexample :
  ¬ all_bound_updated (H := strict_engine) Script000
      first_card_request (alter (mark Script000) 0 two_cards) 200
      liked_payload true "4".
Proof.
  intros Hall.
  destruct (Hall 1 like_button eq_refl eq_refl) as (b' & Hb' & Hactive & _).
  vm_compute in Hb'. injection Hb' as <-. vm_compute in Hactive.
  discriminate Hactive.
Qed.

(** C1, amended: after an ok response whose payload reports success and
    carries an integer like count, the second revision of like.js
    updates every [.js-like] element whose [data-post-id] is the id of
    the request (an id that needs no escaping in the selector): the
    class [active] is present exactly when the payload's [liked] is
    truthy, [aria-pressed] is "true" or "false" accordingly, and where
    the element has an icon or a count child its text becomes the filled
    or outline heart and the count in decimal.  The first revision and
    the posts + comments script update the clicked button in this way
    and leave every other element as it was. *)
Theorem like_success_shown `{SelectorEngine} (v : script) (rq : request)
    (p : page) (status : Z) (data : jsval) (likes : Z)
    (safe : safe_integer likes = true) :
  res_ok status = true → payload_success v data = true →
  Part001.field data "likes" = JNum likes safe →
  (v = Script002 → engine_exact H → css_plain (rq_id rq) = true →
     all_bound_updated v rq p status data
       (truthy (Part001.field data "liked")) (pretty likes)) ∧
  (v ≠ Script002 →
     clicked_only_updated v rq p status data
       (truthy (Part001.field data "liked")) (pretty likes)).
Proof.
  intros Hok Hsuccess Hlikes.
  pose proof (res_ok_not_401 status Hok) as H401.
  assert (Hcount : js_String (Part001.field data "likes")
                   = Some (pretty likes)) by (by rewrite Hlikes).
  assert (Hdef : is_defined (Part001.field data "likes") = true)
    by (by rewrite Hlikes).
  destruct v; (split; [try discriminate | try congruence]).
  - (* first revision *)
    intros _. unfold clicked_only_updated, payload_success in *. simpl.
    destruct (get_prop data "ok") as [ok|] eqn:Hget; [| done].
    unfold Part000.click_settle, Part000.click_try.
    rewrite H401, Hok; simpl. rewrite Hget; simpl. rewrite Hsuccess; simpl.
    rewrite (get_prop_field data "ok" "likes" ok Hget); simpl.
    rewrite (get_prop_field data "ok" "liked" ok Hget); simpl.
    unfold Part000.click_finally.
    destruct (p !! rq_btn rq) as [b0|] eqn:Hb0; simpl.
    + rewrite (show_complete _ _ _ b0 Hcount); simpl.
      rewrite (insert_alter
                 (updated (truthy (Part001.field data "liked"))
                    (pretty likes)) _ _ _ Hb0).
      split.
      * intros b [= <-]. rewrite !list_lookup_alter_eq, Hb0; simpl.
        eexists; split; [reflexivity |].
        eapply switched_display; [| apply switched_updated].
        symmetry. apply (display_unmark Script000).
      * intros j Hne. by rewrite !list_lookup_alter_ne.
    + split; [done |]. intros j Hne. by rewrite list_lookup_alter_ne.
  - (* posts + comments *)
    intros _. unfold clicked_only_updated, payload_success in *. simpl.
    apply andb_true_iff in Hsuccess as [Hdata Htrue].
    unfold Part001.handle_settle, Part001.handle_try; simpl.
    rewrite Hok, Hdata, Htrue; simpl.
    unfold Part001.handle_finally.
    destruct (p !! rq_btn rq) as [b0|] eqn:Hb0; simpl.
    + rewrite (setLikeBtnState_complete _ _ _ b0 Hcount Hdef); simpl.
      rewrite (insert_alter
                 (updated (truthy (Part001.field data "liked"))
                    (pretty likes)) _ _ _ Hb0).
      split.
      * intros b [= <-]. rewrite !list_lookup_alter_eq, Hb0; simpl.
        eexists; split; [reflexivity |].
        eapply switched_display; [| apply switched_updated].
        symmetry. apply (display_unmark Script001).
      * intros j Hne. by rewrite !list_lookup_alter_ne.
    + split; [done |]. intros j Hne. by rewrite list_lookup_alter_ne.
  - (* second revision *)
    intros _ Hexact Hplain. unfold all_bound_updated, payload_success in *.
    simpl. destruct (get_prop data "ok") as [ok|] eqn:Hget; [| done].
    unfold Part002.toggleLike_settle, Part002.toggleLike_try.
    rewrite H401, Hok; simpl. rewrite Hget; simpl. rewrite Hsuccess; simpl.
    rewrite (get_prop_field data "ok" "liked" ok Hget); simpl.
    rewrite (get_prop_field data "ok" "likes" ok Hget); simpl.
    unfold Part002.updateButtons. rewrite (Hexact _ p Hplain); simpl.
    rewrite (forEach_complete _ _ _ _ p Hcount); simpl.
    unfold Part002.toggleLike_finally.
    intros j b Hb Hmatch.
    assert (Hj : j ∈ positions_from 0 (rq_id rq) p).
    { apply elem_of_positions_from. exists b.
      rewrite Nat.sub_0_r. split_and!; [lia | done..]. }
    pose proof (foldl_alter_lookup
                  (updated (truthy (Part001.field data "liked"))
                     (pretty likes))
                  _ p j (NoDup_positions_from (rq_id rq) p 0)) as Hfold.
    rewrite decide_True, Hb in Hfold by done. simpl in Hfold.
    destruct (decide (rq_btn rq = j)) as [->|Hne].
    + rewrite list_lookup_alter_eq, Hfold; simpl.
      eexists; split; [reflexivity |].
      eapply switched_display; [| apply switched_updated].
      symmetry. apply (display_unmark Script002).
    + rewrite list_lookup_alter_ne, Hfold by done.
      eexists; split; [reflexivity |].
      apply switched_updated.
Qed.

Lemma like_success_shown_witness :
  all_bound_updated (H := strict_engine) Script002 first_card_request
    (alter (mark Script002) 0 two_cards) 200 liked_payload true "4" ∧
  clicked_only_updated (H := strict_engine) Script000 first_card_request
    (alter (mark Script000) 0 two_cards) 200 liked_payload true "4".
Proof.
  split.
  - apply (proj1 (like_success_shown (H := strict_engine) Script002
                    first_card_request (alter (mark Script002) 0 two_cards)
                    200 liked_payload 4 eq_refl eq_refl eq_refl eq_refl));
      [reflexivity | apply strict_engine_exact | reflexivity].
  - apply (proj2 (like_success_shown (H := strict_engine) Script000
                    first_card_request (alter (mark Script000) 0 two_cards)
                    200 liked_payload 4 eq_refl eq_refl eq_refl eq_refl)).
    discriminate.
Defined.

(* ===================================================================== *)
(** * Dispatch: capturing and bubbling listeners *)
(* ===================================================================== *)

Section DispatchFacts.
Import Dispatch.

Lemma call_guarded (cb : callback) (path : list node) (f : flags) :
  guarded f → guarded (call cb path f).
Proof.
  intros [Hi Hs]. destruct cb as [v|name]; [| done].
  destruct v; simpl; repeat case_match; done.
Qed.

Lemma call_keeps_stop (cb : callback) (path : list node) (f : flags) :
  stop_propagation f = true → stop_propagation (call cb path f) = true.
Proof.
  intros Hs. destruct cb as [v|name]; [| done].
  destruct v; simpl; repeat case_match; done.
Qed.

(** The listeners of one node: the flags stay guarded, a stop stays,
    and every call recorded is a call on that node. *)
Lemma invoke_spec (c : bool) (path : list node) (i : nat)
    (ls : list listener) (f : flags) (t : trace) :
  guarded f →
  guarded (invoke c path i ls f t).1 ∧
  (stop_propagation f = true →
     stop_propagation (invoke c path i ls f t).1 = true) ∧
  ∃ t', (invoke c path i ls f t).2 = t ++ t' ∧ Forall (λ e, e.1 = i) t'.
Proof.
  revert f t. induction ls as [|l ls IH]; intros f t Hg; simpl.
  - split_and!; [done..|]. exists []. by rewrite app_nil_r.
  - destruct (stop_immediate f).
    { split_and!; [done..|]. exists []. by rewrite app_nil_r. }
    destruct (eqb (capture l) c); [| by apply IH].
    destruct (IH (call (run_callback l) path f) (t ++ [(i, run_callback l)])
                (call_guarded _ _ _ Hg)) as (Hg' & Hs' & t' & Ht' & Hall).
    split_and!; [done | |].
    + intros Hs. by apply Hs', call_keeps_stop.
    + exists ((i, run_callback l) :: t'). rewrite Ht', <- app_assoc.
      split; [done |]. by constructor.
Qed.

(** A capturing like listener among the listeners of a node stops the
    propagation of a click that landed inside a like button. *)
Lemma invoke_stops (v : script) (c : bool) (path : list node) (i : nat)
    (ls : list listener) (f : flags) (t : trace) :
  guarded f → v ≠ Script001 → closest "js-like" path = true →
  {| capture := c; run_callback := LikeListener v |} ∈ ls →
  stop_propagation (invoke c path i ls f t).1 = true.
Proof.
  intros Hg Hv Hin. revert f t Hg.
  induction ls as [|l ls IH]; intros f t Hg Hl; [by apply elem_of_nil in Hl |].
  simpl. destruct (stop_immediate f) eqn:Himm; [by apply Hg |].
  apply elem_of_cons in Hl as [<-|Hl]; simpl.
  - rewrite eqb_reflx.
    apply invoke_spec; [by apply (call_guarded (LikeListener v)) |].
    destruct v; simpl; [by rewrite Hin | done | by rewrite Hin].
  - destruct (eqb (capture l) c); [| by apply IH].
    apply IH; [by apply call_guarded | done].
Qed.

Lemma phase_stopped (c : bool) (path : list node) (nodes : list (nat * node))
    (f : flags) (t : trace) :
  stop_propagation f = true → phase c path nodes f t = (f, t).
Proof. intros Hs. destruct nodes as [|[i n] nodes]; simpl; by rewrite ?Hs. Qed.

Lemma phase_spec (c : bool) (path : list node) (nodes : list (nat * node))
    (f : flags) (t : trace) :
  guarded f →
  guarded (phase c path nodes f t).1 ∧
  ∃ t', (phase c path nodes f t).2 = t ++ t' ∧
        Forall (λ e, e.1 ∈ nodes.*1) t'.
Proof.
  revert f t. induction nodes as [|[i n] nodes IH]; intros f t Hg; simpl.
  - split; [done |]. exists []. by rewrite app_nil_r.
  - destruct (stop_propagation f).
    { split; [done |]. exists []. by rewrite app_nil_r. }
    destruct (invoke_spec c path i (listeners n) f t Hg)
      as (Hg1 & _ & t1 & Ht1 & Hall1).
    destruct (invoke c path i (listeners n) f t) as [f1 tr1].
    simpl in *. subst tr1.
    destruct (IH f1 (t ++ t1) Hg1) as (Hg2 & t2 & Ht2 & Hall2).
    split; [done |]. exists (t1 ++ t2). rewrite Ht2, <- app_assoc.
    split; [done |]. apply Forall_app. split.
    + eapply Forall_impl; [exact Hall1 |]. intros e ->. set_solver.
    + eapply Forall_impl; [exact Hall2 |]. intros e He. set_solver.
Qed.

Lemma phase_app (c : bool) (path : list node) (a b : list (nat * node))
    (f : flags) (t : trace) :
  phase c path (a ++ b) f t =
    phase c path b (phase c path a f t).1 (phase c path a f t).2.
Proof.
  revert f t. induction a as [|[i n] a IH]; intros f t; simpl; [done |].
  destruct (stop_propagation f) eqn:Hs; simpl; [by rewrite phase_stopped |].
  destruct (invoke c path i (listeners n) f t) as [f1 t1]. apply IH.
Qed.

Lemma imap_pair_fst_lt {A : Type} (l : list A) (x : nat * A) :
  x ∈ imap pair l → (x.1 < length l)%nat.
Proof.
  intros (i & y & -> & Hi)%elem_of_lookup_imap. simpl.
  by eapply lookup_lt_Some.
Qed.

(** X15: with the click listener of either revision of like.js registered
    as a capturing listener on a node of the path (the document), a
    click that landed inside a like button calls no listener of any
    node below that node, in either phase, and its default action
    (the submission of an enclosing form) is cancelled. *)
Lemma capturing_listener_shields (v : script) (path : list node) (k : nat)
    (doc : node) :
  v ≠ Script001 → path !! k = Some doc → registration v ∈ listeners doc →
  closest "js-like" path = true →
  canceled (dispatch path).1 = true ∧
  ∀ i, (k < i)%nat → ¬ reached i (dispatch path).2.
Proof.
  intros Hv Hk Hreg Hin. unfold dispatch.
  assert (Hcap : registration v = {| capture := true;
                                     run_callback := LikeListener v |})
    by by destruct v.
  rewrite Hcap in Hreg. clear Hcap.
  assert (Hlen : length (take k path) = k).
  { apply length_take_le. apply lookup_lt_Some in Hk. lia. }
  assert (Hnodes : ∃ below,
            imap pair path = imap pair (take k path) ++ (k, doc) :: below).
  { eexists. rewrite <- (take_drop_middle path k doc Hk) at 1.
    rewrite imap_app, imap_cons, Hlen, Nat.add_0_r. reflexivity. }
  destruct Hnodes as [below ->]. rewrite phase_app.
  destruct (phase_spec true path (imap pair (take k path)) no_flags [])
    as (Hg0 & t0 & Ht0 & Hall0); [done |].
  destruct (phase true path (imap pair (take k path)) no_flags [])
    as [f0 tr0]. simpl in *. subst tr0.
  assert (Hlow : Forall (λ e : nat * callback, (e.1 ≤ k)%nat) t0).
  { eapply Forall_impl; [exact Hall0 |]. intros e He.
    apply list_elem_of_fmap in He as (x & -> & Hx).
    apply imap_pair_fst_lt in Hx. lia. }
  assert (Hshield : ∀ f t, stop_propagation f = true → guarded f →
            Forall (λ e : nat * callback, (e.1 ≤ k)%nat) t →
            canceled f = true ∧ ∀ i, (k < i)%nat → ¬ reached i t).
  { intros f t Hs Hg Ht. split; [by apply Hg |].
    intros i Hi [cb Hcb]. rewrite Forall_forall in Ht.
    apply Ht in Hcb. simpl in Hcb. lia. }
  destruct (stop_propagation f0) eqn:Hs0.
  { rewrite !phase_stopped by done. by apply Hshield. }
  cbn [phase].
  pose proof (invoke_stops v true path k (listeners doc) f0 t0
                Hg0 Hv Hin Hreg) as Hstop.
  destruct (invoke_spec true path k (listeners doc) f0 t0 Hg0)
    as (Hg1 & _ & t1 & Ht1 & Hall1).
  destruct (invoke true path k (listeners doc) f0 t0) as [f1 tr1].
  simpl in *. subst tr1.
  rewrite !phase_stopped by done. apply Hshield; [done..|].
  apply Forall_app. split; [done |].
  eapply Forall_impl; [exact Hall1 |]. intros e ->. lia.
Qed.

(** C2 on the posts + comments script: the click inside the like
    button of a card reaches the card's own click handler, which is
    called before the script's listener; the listener, registered
    without [capture], runs last, on the way up. *)
Theorem bubbling_listener_runs_late :
  (dispatch (card_page Script001)).2
    = [(4, PageHandler "card.onclick"); (1, LikeListener Script001)] ∧
  reached 4 (dispatch (card_page Script001)).2.
Proof.
  split; [reflexivity |].
  exists (PageHandler "card.onclick"). vm_compute. apply list_elem_of_here.
Qed.

(** The same click under either revision of like.js calls the
    capturing listener and nothing else. *)
Lemma capturing_listener_alone (v : script) :
  v ≠ Script001 →
  (dispatch (card_page v)).2 = [(1, LikeListener v)] ∧
  canceled (dispatch (card_page v)).1 = true.
Proof. by destruct v. Qed.

End DispatchFacts.


(* ===================================================================== *)
(** * The scenarios of the specification *)
(* ===================================================================== *)

(** Button 42, not liked, three likes: a click requests [/api/like/42],
    and the response [{ok: true, liked: true, likes: 4}] leaves the
    button active, pressed, with the filled heart and the count "4",
    under each of the three scripts. *)
Example scenario_like_42 (v : script) :
  let s := run (H := strict_engine) v fresh_world
             [ClickLike 0; Settle 0 (Response 200 (Some liked_payload))] in
  log s = [Fetch "/api/like/42"] ∧
  display <$> dom s !! 0
    = Some (Some "1", true, Some "true", Some "❤️", Some "4") ∧
  marks_off v <$> dom s !! 0 = Some true.
Proof. by destruct v. Qed.

(** A 401 changes nothing the user sees; the revisions of like.js show
    the login notice. *)
Example scenario_unauthorized (v : script) :
  let s := run (H := strict_engine) v fresh_world
             [ClickLike 0; Settle 0 (Response 401 None)] in
  display <$> dom s = display <$> two_cards ∧
  (v ≠ Script001 →
   log s = [Fetch "/api/like/42"; Alert (JStr "ログインしてね")]).
Proof. by destruct v. Qed.

(** The modal is closed; a click on an image with the full-resolution
    attribute "/img/full/9.jpg" opens the overlay on that source, and
    Escape closes it and clears the source. *)
Example scenario_modal :
  let img := {| Modal.img_data_full := Some "/img/full/9.jpg";
                Modal.img_src := "/img/9.jpg" |} in
  let opened := Modal.on_click {| Modal.closest_post_image := Some img;
                                  Modal.closest_data_close := false |}
                  Modal.closed_modal in
  opened = Modal.open_modal ∧
  Modal.on_keydown "Escape" opened = Modal.closed_modal.
Proof. split; reflexivity. Qed.

(** The ranking response of two entries renders two items showing
    "a / X" with "❤️ 10" and "b / Y" with "❤️ 5", the first marked as
    rank 1. *)
Example scenario_ranking :
  Ranking.ranking_list
    (Ranking.loadRanking (H := Ranking.entry_parser)
       (Ranking.week_server Ranking.sample_ranking) Ranking.week_page).1.1
  = [ {| Ranking.li_classList := ["ranking-item"; "rank-1"];
         Ranking.li_children :=
           [ {| Ranking.child_class := "rank-no";
                Ranking.child_text := "1" |};
             {| Ranking.child_class := "rank-name";
                Ranking.child_text := "a / X" |};
             {| Ranking.child_class := "rank-like";
                Ranking.child_text := "❤️ 10" |} ] |};
      {| Ranking.li_classList := ["ranking-item"];
         Ranking.li_children :=
           [ {| Ranking.child_class := "rank-no";
                Ranking.child_text := "2" |};
             {| Ranking.child_class := "rank-name";
                Ranking.child_text := "b / Y" |};
             {| Ranking.child_class := "rank-like";
                Ranking.child_text := "❤️ 5" |} ] |} ].
Proof. reflexivity. Qed.

(** A success payload whose like count has no string form.  The first
    revision raises before it has written anything and shows the
    connectivity notice; the second revision has written the state of
    the first card, not its count, leaves the second card as it was and
    shows the connectivity notice; the posts + comments script has
    written the state of the clicked card and the rejection is not
    caught. *)
Example scenario_unprintable_count :
  handler_settle (H := strict_engine) Script000 first_card_request
    two_cards (Response 200 (Some odd_likes_payload))
    = (alter (unmark Script000) 0 two_cards, [Alert (JStr "通信エラー")]) ∧
  handler_settle (H := strict_engine) Script002 first_card_request
    two_cards (Response 200 (Some odd_likes_payload))
    = ([unmark Script002 (half_updated true like_button); like_button],
       [Alert (JStr "通信エラー")]) ∧
  handler_settle (H := strict_engine) Script001 first_card_request
    two_cards (Response 200 (Some odd_likes_payload))
    = ([unmark Script001 (half_updated true like_button); like_button],
       [UnhandledRejection]).
Proof. split_and!; reflexivity. Qed.

(* ===================================================================== *)
(** * Like scripts: every way a request can settle *)
(* ===================================================================== *)

(** A settled handler handled a success and surfaced nothing, or it
    raised while it handled a success (the posts + comments script and
    the second revision of like.js, which write before they raise), or
    it only unmarked its button and surfaced at most one thing. *)
Lemma handler_settle_cases `{SelectorEngine} (v : script) (rq : request)
    (p : page) (o : fetch_outcome) :
  (succeeds v o = true ∧ (handler_settle v rq p o).2 = []) ∨
  (succeeds v o = true ∧ v ≠ Script000 ∧
   ((handler_settle v rq p o).2 = [Alert (JStr "通信エラー")] ∨
    (handler_settle v rq p o).2 = [UnhandledRejection])) ∨
  ((handler_settle v rq p o).1 = alter (unmark v) (rq_btn rq) p ∧
   ((handler_settle v rq p o).2 = [] ∨
    (∃ msg, (handler_settle v rq p o).2 = [Alert msg]) ∨
    (handler_settle v rq p o).2 = [SetLocation "/login"] ∨
    (handler_settle v rq p o).2 = [UnhandledRejection])).
Proof.
  destruct v; simpl.
  - unfold Part000.click_settle, Part000.click_try, Part000.click_finally.
    destruct o as [|status [data|]]; simpl; [by eauto 9 | |].
    + destruct (status =? 401)%Z; simpl; [by eauto 9 |].
      destruct (res_ok status); simpl; [| by eauto 9].
      destruct (get_prop data "ok") as [ok|] eqn:Hget; simpl; [| by eauto 9].
      destruct (truthy ok); simpl.
      * rewrite (get_prop_field data "ok" "likes" ok Hget),
          (get_prop_field data "ok" "liked" ok Hget). simpl.
        destruct (p !! rq_btn rq) as [b|]; simpl; [| by left].
        destruct (Part000.show _ _ b); simpl; [by left | by eauto 9].
      * rewrite (get_prop_field data "ok" "error" ok Hget). simpl.
        destruct (js_String _); simpl; by eauto 9.
    + destruct (status =? 401)%Z; simpl; [by eauto 9 |].
      destruct (res_ok status); simpl; by eauto 9.
  - unfold Part001.handle_settle, Part001.handle_try, Part001.handle_finally.
    destruct o as [|status body]; simpl; [by eauto 9 |].
    destruct body as [data|]; simpl.
    + destruct (res_ok status); simpl.
      * destruct (truthy data); simpl.
        -- destruct (is_true (Part001.field data "ok")); simpl.
           ++ destruct (p !! rq_btn rq) as [b|]; simpl; [| by left].
              destruct (Part001.setLikeBtnState _ _ b) as [e [|]]; simpl;
                [by left |].
              right; left. split_and!; [done | done | by right].
           ++ destruct (is_string _ _); simpl; by eauto 9.
        -- by eauto 9.
      * destruct (truthy data && _); simpl; by eauto 9.
    + rewrite orb_true_r. simpl. by eauto 9.
  - unfold Part002.toggleLike_settle, Part002.toggleLike_try,
      Part002.toggleLike_finally.
    destruct o as [|status [data|]]; simpl; [by eauto 9 | |].
    + destruct (status =? 401)%Z; simpl; [by eauto 9 |].
      destruct (res_ok status); simpl; [| by eauto 9].
      destruct (get_prop data "ok") as [ok|] eqn:Hget; simpl; [| by eauto 9].
      destruct (truthy ok); simpl.
      * rewrite (get_prop_field data "ok" "liked" ok Hget),
          (get_prop_field data "ok" "likes" ok Hget). simpl.
        destruct (Part002.updateButtons _ _ _ _) as [p1 [|]]; simpl;
          [by left |].
        right; left. split_and!; [done | done | by left].
      * rewrite (get_prop_field data "ok" "error" ok Hget). simpl.
        destruct (js_String _); simpl; by eauto 9.
    + destruct (status =? 401)%Z; simpl; [by eauto 9 |].
      destruct (res_ok status); simpl; by eauto 9.
Qed.

(** X1: what the user sees of the buttons changes only when the request
    ended in an ok response whose payload reports success, as the script
    tests it; after any other outcome every button shows what it showed
    before. *)
Theorem display_changes_only_on_success `{SelectorEngine} (v : script)
    (rq : request) (p : page) (o : fetch_outcome) :
  display <$> (handler_settle v rq p o).1 ≠ display <$> p →
  succeeds v o = true.
Proof.
  intros Hchanged.
  destruct (handler_settle_cases v rq p o) as [[Hs _]|[[Hs _]|[Hp _]]];
    [exact Hs | exact Hs |].
  exfalso. apply Hchanged. rewrite Hp. apply display_finally.
Qed.

Lemma display_changes_only_on_success_witness :
  succeeds Script000 (Response 200 (Some liked_payload)) = true.
Proof.
  apply (display_changes_only_on_success (H := strict_engine) Script000
           first_card_request (alter (mark Script000) 0 two_cards)).
  vm_compute. discriminate.
Defined.

(** X2: a settling handler surfaces at most one thing and never sends
    a further request.  After any outcome but a success it has done
    nothing to the page but unmark its button, and so has the first
    revision of like.js whenever it surfaces something.  (The second
    revision and the posts + comments script write the like state
    before the count, so a success whose count cannot be printed
    surfaces the connectivity notice or an uncaught rejection after the
    page was written.) *)
Theorem settle_surfaces_one_thing `{SelectorEngine} (v : script)
    (rq : request) (p : page) (o : fetch_outcome) :
  (length (handler_settle v rq p o).2 ≤ 1)%nat ∧
  (∀ url, Fetch url ∉ (handler_settle v rq p o).2) ∧
  (succeeds v o = false ∨ (v = Script000 ∧ (handler_settle v rq p o).2 ≠ []) →
   (handler_settle v rq p o).1 = alter (unmark v) (rq_btn rq) p).
Proof.
  destruct (handler_settle_cases v rq p o)
    as [[Hs Hout]|[(Hs & Hv & [Hout|Hout])
                  |[Hp [Hout|[[msg Hout]|[Hout|Hout]]]]]];
    rewrite Hout; simpl; (split_and!; [lia | | ]);
    try (intros url Hin; try (by apply elem_of_nil in Hin);
         by apply list_elem_of_singleton in Hin);
    try (intros _; exact Hp);
    intros [Hf|[Hv' Hne]]; congruence.
Qed.

Lemma settle_surfaces_one_thing_witness :
  (handler_settle (H := strict_engine) Script002 first_card_request
     (alter (mark Script002) 0 two_cards) (Response 503 None)).1
  = alter (unmark Script002) 0 (alter (mark Script002) 0 two_cards) ∧
  (handler_settle (H := strict_engine) Script000 first_card_request
     (alter (mark Script000) 0 two_cards)
     (Response 200 (Some odd_likes_payload))).1
  = alter (unmark Script000) 0 (alter (mark Script000) 0 two_cards).
Proof.
  split.
  - apply (settle_surfaces_one_thing (H := strict_engine) Script002
             first_card_request (alter (mark Script002) 0 two_cards)
             (Response 503 None)).
    left. reflexivity.
  - apply (settle_surfaces_one_thing (H := strict_engine) Script000
             first_card_request (alter (mark Script000) 0 two_cards)
             (Response 200 (Some odd_likes_payload))).
    right. split; [reflexivity | vm_compute; discriminate].
Defined.

(* ===================================================================== *)
(** * Like scripts: what a handler leaves alone *)
(* ===================================================================== *)

Lemma skeleton_mark (v : script) (b : element) : skeleton (mark v b) = skeleton b.
Proof.
  destruct v; unfold skeleton; simpl; try reflexivity;
    by rewrite !contains_add_other.
Qed.

Lemma skeleton_unmark (v : script) (b : element) :
  skeleton (unmark v b) = skeleton b.
Proof.
  destruct v; unfold skeleton; simpl; try reflexivity;
    by rewrite !contains_remove_other.
Qed.

Lemma skeleton_half_updated (liked : bool) (b : element) :
  skeleton (half_updated liked b) = skeleton b.
Proof.
  unfold skeleton; simpl. rewrite !contains_toggle_other by done.
  by destruct (like_icon b).
Qed.

Lemma skeleton_set_count_text (count : string) (b : element) :
  skeleton (set_count_text count b) = skeleton b.
Proof. unfold skeleton; simpl. by destruct (like_count b). Qed.

Lemma skeleton_settle `{SelectorEngine} (v : script) (rq : request)
    (p : page) (o : fetch_outcome) :
  skeleton <$> (handler_settle v rq p o).1 = skeleton <$> p.
Proof.
  destruct (handler_settle_written v rq p o) as (p1 & -> & Hw).
  rewrite (fmap_alter_same skeleton) by apply skeleton_unmark.
  apply written_page_keeps;
    [apply skeleton_half_updated | apply skeleton_set_count_text | exact Hw].
Qed.

Lemma skeleton_step `{SelectorEngine} (v : script) (s : world) (e : event) :
  skeleton <$> dom (step v s e) = skeleton <$> dom s.
Proof.
  assert (Hbegin : ∀ e',
            skeleton <$> dom
              match handler_begin v e' (dom s) with
              | None => s
              | Some (p, rq) =>
                  {| dom := p; outstanding := outstanding s ++ [rq];
                     log := log s ++ [Fetch (rq_url rq)] |}
              end = skeleton <$> dom s).
  { intros e'. destruct (handler_begin v e' (dom s)) as [[p rq]|] eqn:Hb;
      [| done].
    apply handler_begin_inv in Hb as (b & _ & _ & _ & ->). simpl.
    apply fmap_alter_same, skeleton_mark. }
  destruct e as [btn|btn|btn|k o]; try apply Hbegin.
  simpl. destruct (outstanding s !! k) as [rq|]; [| done].
  pose proof (skeleton_settle v rq (dom s) o) as Hsettle.
  by destruct (handler_settle v rq (dom s) o).
Qed.

(** X3: no sequence of clicks, submits and settling requests adds or
    removes an element, changes a post or comment id, makes or unmakes
    a like button, or gives a button an icon or count child it did not
    have. *)
Theorem run_keeps_skeleton `{SelectorEngine} (v : script) (s : world)
    (es : list event) :
  skeleton <$> dom (run v s es) = skeleton <$> dom s ∧
  length (dom (run v s es)) = length (dom s).
Proof.
  assert (Hsk : skeleton <$> dom (run v s es) = skeleton <$> dom s).
  { revert s. induction es as [|e es IH]; intros s; [done |].
    simpl. rewrite IH. apply skeleton_step. }
  split; [exact Hsk |].
  by rewrite <- (length_fmap skeleton), Hsk, length_fmap.
Qed.

Lemma settle_alters_button `{SelectorEngine} (v : script) (rq : request)
    (p : page) (o : fetch_outcome) :
  v ≠ Script002 →
  ∃ f, (handler_settle v rq p o).1 = alter f (rq_btn rq) p.
Proof.
  intros Hv. destruct v; [| | done]; simpl.
  - unfold Part000.click_settle, Part000.click_finally.
    destruct (Part000.click_try rq p o) as [[p1 out]|] eqn:Htry; simpl;
      [| by eexists].
    destruct (click_try_page rq p p1 o out Htry)
      as [->|(b & e & _ & _ & ->)]; [by eexists |].
    rewrite list_insert_alter. eexists. apply list_alter_alter_eq.
  - unfold Part001.handle_settle, Part001.handle_finally.
    pose proof (handle_try_page rq p o) as Hpage.
    destruct (Part001.handle_try rq p o) as [p1 surfaced]. simpl in *.
    destruct Hpage as [->|(b & e & _ & _ & ->)]; [by eexists |].
    rewrite list_insert_alter. eexists. apply list_alter_alter_eq.
Qed.

(** X4: in the first revision of like.js and in the posts + comments
    script a settling request touches no element but its own button,
    however it ends. *)
Theorem other_elements_untouched `{SelectorEngine} (v : script)
    (rq : request) (p : page) (o : fetch_outcome) (j : nat) :
  v ≠ Script002 → j ≠ rq_btn rq →
  (handler_settle v rq p o).1 !! j = p !! j.
Proof.
  intros Hv Hj. destruct (settle_alters_button v rq p o Hv) as [f ->].
  by rewrite list_lookup_alter_ne.
Qed.

Lemma other_elements_untouched_witness :
  (handler_settle (H := strict_engine) Script000 first_card_request
     (alter (mark Script000) 0 two_cards)
     (Response 200 (Some liked_payload))).1 !! 1 = Some like_button.
Proof.
  by rewrite (other_elements_untouched (H := strict_engine) Script000
                first_card_request (alter (mark Script000) 0 two_cards)
                (Response 200 (Some liked_payload)) 1).
Defined.

(** The page the second revision leaves: the elements outside some
    selection are as they were (the selection is empty after a
    failure), then the button is unmarked. *)
Lemma toggleLike_settle_page `{SelectorEngine} (rq : request) (p : page)
    (o : fetch_outcome) :
  ∃ p1 idxs,
    (handler_settle Script002 rq p o).1
      = alter (unmark Script002) (rq_btn rq) p1 ∧
    (∀ j, j ∉ idxs → p1 !! j = p !! j) ∧
    (idxs = [] ∨ querySelectorAll_like (rq_id rq) p = Some idxs).
Proof.
  simpl. unfold Part002.toggleLike_settle, Part002.toggleLike_finally.
  pose proof (toggleLike_try_page rq p o) as Hpage.
  destruct (Part002.toggleLike_try rq p o) as [p1 surfaced]. simpl in *.
  exists p1.
  destruct Hpage as [->|(liked & likes & buttons & Hsel & ->)].
  - exists []. by eauto.
  - exists buttons. split_and!; [done | | by right].
    intros j Hj. by apply forEach_lookup_other.
Qed.

(** X5: with a selector engine that selects exactly the matching
    elements, a settling request of the second revision of like.js
    leaves unchanged every element that is neither its own button nor a
    like button bound to the id of the request. *)
Theorem unbound_elements_untouched `{SelectorEngine} (rq : request)
    (p : page) (o : fetch_outcome) (j : nat) (b : element) :
  engine_exact H → css_plain (rq_id rq) = true →
  p !! j = Some b → j ≠ rq_btn rq → matches_like (rq_id rq) b = false →
  (handler_settle Script002 rq p o).1 !! j = Some b.
Proof.
  intros Hexact Hplain Hb Hj Hmatch.
  destruct (toggleLike_settle_page rq p o) as (p1 & idxs & -> & Hout & Hsel).
  rewrite list_lookup_alter_ne by done.
  rewrite Hout; [exact Hb |].
  destruct Hsel as [->|Hsel]; [by intros ?%elem_of_nil |].
  rewrite (Hexact _ p Hplain) in Hsel. injection Hsel as <-.
  rewrite elem_of_positions_from, Nat.sub_0_r.
  intros (b' & _ & Hb' & Hm). congruence.
Qed.

Lemma unbound_elements_untouched_witness :
  (handler_settle (H := strict_engine) Script002 first_card_request
     (dom post_page) (Response 200 (Some liked_payload))).1 !! 1
  = Some comment_button.
Proof.
  apply (unbound_elements_untouched (H := strict_engine) first_card_request
           (dom post_page) (Response 200 (Some liked_payload)) 1
           comment_button strict_engine_exact);
    [reflexivity | reflexivity | discriminate | reflexivity].
Defined.

(** X6: an ok response whose body is the JSON value [null] makes both
    revisions of like.js raise on reading [data.ok]; the exception is
    caught and shown as the connectivity notice.  The posts + comments
    script tests the data first and stays silent.  In either case the
    page is only unmarked. *)
Theorem null_payload_handled `{SelectorEngine} (v : script) (rq : request)
    (p : page) (status : Z) :
  res_ok status = true →
  handler_settle v rq p (Response status (Some JNull))
    = (alter (unmark v) (rq_btn rq) p,
       match v with
       | Script001 => []
       | _ => [Alert (JStr "通信エラー")]
       end).
Proof.
  intros Hok. pose proof (res_ok_not_401 status Hok) as H401.
  destruct v; simpl.
  - unfold Part000.click_settle, Part000.click_try. by rewrite H401, Hok.
  - unfold Part001.handle_settle, Part001.handle_try. simpl.
    by rewrite Hok.
  - unfold Part002.toggleLike_settle, Part002.toggleLike_try.
    by rewrite H401, Hok.
Qed.

Lemma null_payload_handled_witness :
  (handler_settle (H := strict_engine) Script000 first_card_request
     (alter (mark Script000) 0 two_cards) (Response 200 (Some JNull))).2
  = [Alert (JStr "通信エラー")].
Proof.
  by rewrite (null_payload_handled (H := strict_engine) Script000
                first_card_request (alter (mark Script000) 0 two_cards) 200).
Defined.

(** X7: when the browser rejects the selector built from the post id,
    the second revision of like.js shows the connectivity notice for a
    response that reported success, and no button is updated. *)
Theorem selector_error_handled `{SelectorEngine} (rq : request) (p : page)
    (status : Z) (data : jsval) :
  res_ok status = true → payload_success Script002 data = true →
  querySelectorAll_like (rq_id rq) p = None →
  handler_settle Script002 rq p (Response status (Some data))
    = (alter (unmark Script002) (rq_btn rq) p, [Alert (JStr "通信エラー")]).
Proof.
  intros Hok Hsuccess Hsel. pose proof (res_ok_not_401 status Hok) as H401.
  simpl in *. unfold Part002.toggleLike_settle, Part002.toggleLike_try.
  rewrite H401, Hok. simpl.
  destruct (get_prop data "ok") as [ok|] eqn:Hget; [| done]. simpl.
  rewrite Hsuccess. simpl.
  rewrite (get_prop_field data "ok" "liked" ok Hget),
    (get_prop_field data "ok" "likes" ok Hget). simpl.
  unfold Part002.updateButtons. by rewrite Hsel.
Qed.

Lemma selector_error_handled_witness :
  (handler_settle (H := strict_engine) Script002 quoted_card_request
     [mark Script002 quoted_card] (Response 200 (Some liked_payload))).2
  = [Alert (JStr "通信エラー")].
Proof.
  by rewrite (selector_error_handled (H := strict_engine) quoted_card_request
                [mark Script002 quoted_card] 200 liked_payload
                eq_refl eq_refl eq_refl).
Defined.

(** X8: the posts + comments script sends the user to the login page
    for every response that is not a success and whose payload carries
    the error "login_required", whatever the status. *)
Theorem login_redirect_any_status `{SelectorEngine} (rq : request)
    (p : page) (status : Z) (data : jsval) :
  login_payload (Some data) = true →
  succeeds Script001 (Response status (Some data)) = false →
  handler_settle Script001 rq p (Response status (Some data))
    = (alter (unmark Script001) (rq_btn rq) p, [SetLocation "/login"]).
Proof.
  intros [Hdata Herr]%andb_true_iff Hfail. simpl in *.
  rewrite Hdata in Hfail. simpl in Hfail.
  unfold Part001.handle_settle, Part001.handle_try. simpl.
  rewrite Hdata, Herr. simpl.
  destruct (res_ok status); simpl in *; [| done].
  by rewrite Hfail.
Qed.

Lemma login_redirect_any_status_witness :
  (handler_settle (H := strict_engine) Script001 first_card_request
     loading_cards (Response 200 (Some login_required_payload))).2
  = [SetLocation "/login"].
Proof.
  by rewrite (login_redirect_any_status (H := strict_engine)
                first_card_request loading_cards 200 login_required_payload
                eq_refl eq_refl).
Defined.

(* ===================================================================== *)
(** * Like scripts: a button through one request *)
(* ===================================================================== *)

Lemma remove_add_absent (c : string) (l : list string) :
  classList_contains c l = false →
  classList_remove c (classList_add c l) = l.
Proof.
  intros Habsent. unfold classList_add. rewrite Habsent.
  unfold classList_remove.
  apply bool_decide_eq_false in Habsent.
  induction l as [|x l IH]; simpl.
  - by rewrite filter_cons_False by (intros Hc; by apply Hc).
  - rewrite filter_cons_True by set_solver.
    f_equal. apply IH. set_solver.
Qed.

Lemma alter_fixed {A : Type} (f : A → A) (i : nat) (l : list A) :
  (∀ x, l !! i = Some x → f x = x) → alter f i l = l.
Proof.
  intros Hf. rewrite <- (list_alter_id id l i) at 2 by done.
  by apply list_alter_ext.
Qed.

(** X9: in the posts + comments script, a request that does not end in
    a success leaves the page exactly as it was before the click: the
    class [is-loading], added before the request, is removed again, and
    nothing else was written. *)
Theorem failed_toggle_restores_page `{SelectorEngine} (e : event)
    (p p1 : page) (rq : request) (o : fetch_outcome) :
  handler_begin Script001 e p = Some (p1, rq) →
  succeeds Script001 o = false →
  (handler_settle Script001 rq p1 o).1 = p.
Proof.
  intros (b & _ & Hb & Hidle & ->)%handler_begin_inv Hfail.
  destruct (handler_settle_cases Script001 rq
              (alter (mark Script001) (rq_btn rq) p) o)
    as [[Hs _]|[[Hs _]|[-> _]]]; [congruence | congruence |].
  rewrite list_alter_alter_eq. apply alter_fixed.
  intros x Hx. rewrite Hb in Hx. injection Hx as <-.
  simpl in *. unfold set_classList; simpl.
  rewrite remove_add_absent by done. by destruct b.
Qed.

Lemma failed_toggle_restores_page_witness :
  (handler_settle (H := strict_engine) Script001
     {| rq_btn := 1; rq_id := "7"; rq_url := "/api/comment_like/7" |}
     (alter (mark Script001) 1 (dom post_page)) (Response 500 None)).1
  = dom post_page.
Proof.
  apply (failed_toggle_restores_page (H := strict_engine)
           (ClickCommentLike 1) (dom post_page)); reflexivity.
Defined.

Lemma handler_begin_ready (v : script) (e : event) (p p1 q : page)
    (rq : request) (b b' : element) :
  handler_begin v e p = Some (p1, rq) →
  p !! rq_btn rq = Some b → q !! rq_btn rq = Some b' →
  skeleton b' = skeleton b → in_flight v b' = false →
  handler_begin v e q = Some (alter (mark v) (rq_btn rq) q, rq).
Proof.
  unfold skeleton. intros Hbegin Hb Hb' [= Hpost Hcomment _ _ _ _] Hidle.
  destruct v, e; simpl in Hbegin, Hidle |- *; try done;
    unfold Part000.click_begin, Part001.handlePostLike_begin,
      Part001.handleCommentLike_begin, Part001.handle_begin,
      Part002.toggleLike_begin in *;
    destruct (p !! btn) as [b0|] eqn:Hb0; simpl in Hbegin; try done;
    repeat match type of Hbegin with
           | (if ?c then _ else _) = _ => destruct c eqn:?; [done |]
           end;
    injection Hbegin as <- <-; simpl in *;
    rewrite Hb0 in Hb; injection Hb as ->;
    rewrite Hb'; simpl; rewrite ?Hpost, ?Hcomment, ?Hidle;
    repeat match goal with
           | Hc : ?c = false |- context [?c] => rewrite Hc
           end;
    reflexivity.
Qed.

(** X10: no outcome leaves a button stuck: once its request has
    settled, the same click (or submit) starts the same request
    again. *)
Theorem button_usable_after_settle `{SelectorEngine} (v : script)
    (e : event) (p p1 : page) (rq : request) (o : fetch_outcome) :
  handler_begin v e p = Some (p1, rq) →
  ∃ p3, handler_begin v e (handler_settle v rq p1 o).1 = Some (p3, rq).
Proof.
  intros Hbegin.
  pose proof Hbegin as (b & _ & Hb & _ & ->)%handler_begin_inv.
  pose proof (skeleton_settle v rq (alter (mark v) (rq_btn rq) p) o) as Hsk.
  rewrite (fmap_alter_same skeleton) in Hsk by apply skeleton_mark.
  destruct (handler_settle_finally v rq (alter (mark v) (rq_btn rq) p) o)
    as (q & Hq & _).
  rewrite Hq in Hsk |- *. clear Hq.
  apply (fmap_eq_lookup _ _ _ (rq_btn rq)) in Hsk.
  rewrite Hb, list_lookup_alter_eq in Hsk.
  rewrite <- option_fmap_compose in Hsk.
  destruct (q !! rq_btn rq) as [b1|] eqn:Hb1; simpl in Hsk; [| done].
  assert (Hsame : skeleton (unmark v b1) = skeleton b) by congruence.
  eexists.
  eapply handler_begin_ready; [exact Hbegin | exact Hb | | exact Hsame |].
  - by rewrite list_lookup_alter_eq, Hb1.
  - apply marks_off_in_flight, marks_off_unmark.
Qed.

Lemma button_usable_after_settle_witness :
  ∃ p3,
    handler_begin Script002 (ClickLike 0)
      (handler_settle (H := strict_engine) Script002 first_card_request
         (alter (mark Script002) 0 two_cards) NetworkError).1
    = Some (p3, first_card_request).
Proof.
  exact (button_usable_after_settle (H := strict_engine) Script002
           (ClickLike 0) two_cards (alter (mark Script002) 0 two_cards)
           first_card_request NetworkError eq_refl).
Defined.

(** X11: a request is only ever sent for a button that carries a
    non-empty id, and its URL names that id: the comment handler posts
    to [/api/comment_like/] followed by the button's comment id, every
    other handler to [/api/like/] followed by the button's post id. *)
Theorem request_names_button_id (v : script) (e : event) (p p1 : page)
    (rq : request) :
  handler_begin v e p = Some (p1, rq) →
  ∃ b, p !! rq_btn rq = Some b ∧ rq_id rq ≠ "" ∧
    match e with
    | ClickCommentLike _ =>
        data_comment_id b = Some (rq_id rq) ∧
        rq_url rq = "/api/comment_like/" +:+ rq_id rq
    | _ =>
        data_post_id b = Some (rq_id rq) ∧
        rq_url rq = "/api/like/" +:+ rq_id rq
    end.
Proof.
  destruct v, e; simpl; try done;
    unfold Part000.click_begin, Part001.handlePostLike_begin,
      Part001.handleCommentLike_begin, Part001.handle_begin,
      Part002.toggleLike_begin;
    destruct (p !! btn) as [b|] eqn:Hb; simpl; try done;
    repeat case_match; try done; intros [= <- <-]; simpl;
    exists b; (split; [done |]);
    match goal with
    | Hid : negb (truthy (of_attr ?a)) = false |- _ =>
        destruct a as [id|]; simpl in *; [| done];
        apply negb_false_iff, negb_true_iff, String.eqb_neq in Hid
    end; done.
Qed.

Lemma request_names_button_id_witness :
  ∃ b, dom post_page !! 1 = Some b ∧ "7" ≠ "" ∧
       data_comment_id b = Some "7" ∧
       "/api/comment_like/7" = "/api/comment_like/" +:+ "7".
Proof.
  exact (request_names_button_id Script001 (ClickCommentLike 1)
           (dom post_page) (alter (mark Script001) 1 (dom post_page))
           {| rq_btn := 1; rq_id := "7"; rq_url := "/api/comment_like/7" |}
           eq_refl).
Defined.

(* ===================================================================== *)
(** * Like scripts: the listeners *)
(* ===================================================================== *)

(** X12: a click inside a like button that carries no post id (the
    attribute is missing or empty) is swallowed by each script: the
    listener stops the event and cancels its default action, and then
    returns without a request and without touching the page. *)
Theorem click_without_id_swallowed `{SelectorEngine} (v : script)
    (t : click_target) (s : world) (btn : nat) :
  closest_js_like t = Some btn →
  (∀ b, dom s !! btn = Some b →
        data_post_id b = None ∨ data_post_id b = Some "") →
  click_listener v t s = (true, s).
Proof.
  intros Ht Hid.
  assert (Hnone : handler_begin v (ClickLike btn) (dom s) = None).
  { destruct v; simpl;
      unfold Part000.click_begin, Part001.handlePostLike_begin,
        Part001.handle_begin, Part002.toggleLike_begin;
      destruct (dom s !! btn) as [b|] eqn:Hb; simpl; try done;
      destruct (Hid b eq_refl) as [-> | ->]; simpl; by repeat case_match. }
  unfold click_listener. rewrite Ht. simpl. rewrite Hnone. by destruct v.
Qed.

Lemma click_without_id_swallowed_witness :
  click_listener (H := strict_engine) Script000
    {| closest_js_like := Some 2; closest_js_comment_like := None |} post_page
  = (true, post_page).
Proof.
  apply (click_without_id_swallowed (H := strict_engine) Script000 _ _ 2);
    [reflexivity |].
  intros b [= <-]. by left.
Defined.

(** X13: a click inside an idle comment-like button with a non-empty
    comment id, outside any post-like button, is intercepted by the
    posts + comments script, which marks the button and posts to
    [/api/comment_like/] followed by the id; both revisions of like.js
    let the click pass and do nothing. *)
Theorem comment_like_request `{SelectorEngine} (t : click_target)
    (s : world) (btn : nat) (b : element) (id : string) :
  closest_js_like t = None → closest_js_comment_like t = Some btn →
  dom s !! btn = Some b → data_comment_id b = Some id → id ≠ "" →
  in_flight Script001 b = false →
  click_listener Script001 t s
    = (true,
       {| dom := alter (mark Script001) btn (dom s);
          outstanding :=
            outstanding s ++ [{| rq_btn := btn; rq_id := id;
                                 rq_url := "/api/comment_like/" +:+ id |}];
          log := log s ++ [Fetch ("/api/comment_like/" +:+ id)] |}) ∧
  ∀ v, v ≠ Script001 → click_listener v t s = (false, s).
Proof.
  intros Hlike Hcomment Hb Hid Hne Hidle. split.
  - unfold click_listener. rewrite Hlike, Hcomment. simpl.
    unfold Part001.handleCommentLike_begin, Part001.handle_begin.
    rewrite Hb. simpl in *. rewrite Hidle, Hid. simpl.
    apply String.eqb_neq in Hne. by rewrite Hne.
  - intros v Hv. unfold click_listener. rewrite Hlike. by destruct v.
Qed.

Lemma comment_like_request_witness :
  log (click_listener (H := strict_engine) Script001
         {| closest_js_like := None; closest_js_comment_like := Some 1 |}
         post_page).2
  = [Fetch "/api/comment_like/7"].
Proof.
  by rewrite (proj1 (comment_like_request (H := strict_engine)
                       {| closest_js_like := None;
                          closest_js_comment_like := Some 1 |}
                       post_page 1 comment_button "7"
                       eq_refl eq_refl eq_refl eq_refl
                       ltac:(discriminate) eq_refl)).
Defined.

(** X14: the submit listener of the second revision of like.js lets a
    submit pass when it is not inside a [.like-form] or the form holds
    no [.js-like] button; a submit of a like form whose button has a
    request outstanding is intercepted and dropped: nothing is sent and
    nothing changes.  The other two scripts have no submit listener. *)
Theorem submit_listener_guarded `{SelectorEngine} (v : script)
    (t : submit_target) (s : world) :
  (closest_like_form t = None ∨ closest_like_form t = Some None
   ∨ v ≠ Script002 → submit_listener v t s = (false, s)) ∧
  (∀ btn b, closest_like_form t = Some (Some btn) →
     dom s !! btn = Some b → in_flight Script002 b = true →
     submit_listener Script002 t s = (true, s)).
Proof.
  split.
  - intros [Ht|[Ht|Hv]]; unfold submit_listener; rewrite ?Ht;
      by destruct v.
  - intros btn b Ht Hb Hbusy. unfold submit_listener. rewrite Ht.
    unfold step.
    rewrite (handler_begin_busy Script002 (SubmitLikeForm btn)
               (dom s) btn b); [reflexivity | | exact Hb | exact Hbusy].
    by right; right.
Qed.

Lemma submit_listener_guarded_witness :
  submit_listener (H := strict_engine) Script002
    {| closest_like_form := Some (Some 0) |}
    {| dom := alter (mark Script002) 0 two_cards;
       outstanding := [first_card_request]; log := [Fetch "/api/like/42"] |}
  = (true,
     {| dom := alter (mark Script002) 0 two_cards;
        outstanding := [first_card_request]; log := [Fetch "/api/like/42"] |}).
Proof.
  apply (proj2 (submit_listener_guarded (H := strict_engine) Script002
                  {| closest_like_form := Some (Some 0) |} _) 0
           (mark Script002 like_button)); reflexivity.
Defined.

(* ===================================================================== *)
(** * Dispatch: what the like listeners leave to the page *)
(* ===================================================================== *)

Section DispatchMore.
Import Dispatch.

Lemma call_outside (cb : callback) (path : list node) (f : flags) :
  closest "js-like" path = false → closest "js-comment-like" path = false →
  call cb path f = f.
Proof.
  intros Hlike Hcomment. destruct cb as [v|name]; [| done].
  destruct v; simpl; by rewrite ?Hlike, ?Hcomment.
Qed.

Lemma invoke_outside (c : bool) (path : list node) (i : nat)
    (ls : list listener) (f : flags) (t : trace) :
  closest "js-like" path = false → closest "js-comment-like" path = false →
  stop_immediate f = false →
  invoke c path i ls f t
    = (f, t ++ ((λ l, (i, run_callback l)) <$> filter (λ l, capture l = c) ls)).
Proof.
  intros Hlike Hcomment Himm. revert t.
  induction ls as [|l ls IH]; intros t; simpl.
  - by rewrite app_nil_r.
  - rewrite Himm, call_outside by done.
    destruct (eqb (capture l) c) eqn:Hc.
    + apply eqb_prop in Hc. rewrite filter_cons_True by done.
      rewrite IH, <- app_assoc. reflexivity.
    + apply eqb_false_iff in Hc. rewrite filter_cons_False by done. apply IH.
Qed.

Lemma phase_outside (c : bool) (path : list node) (nodes : list (nat * node))
    (t : trace) :
  closest "js-like" path = false → closest "js-comment-like" path = false →
  phase c path nodes no_flags t = (no_flags, t ++ calls c nodes).
Proof.
  intros Hlike Hcomment. revert t.
  induction nodes as [|[i n] nodes IH]; intros t; simpl.
  - by rewrite app_nil_r.
  - rewrite invoke_outside by done. rewrite IH, <- app_assoc. reflexivity.
Qed.

(** X16: a click that is neither inside a like button nor inside a
    comment-like button is left alone by the like listeners: the
    dispatch calls every listener of the path, capturing ones on the
    way down and the others on the way up, propagation is not stopped
    and the default action is not cancelled. *)
Theorem outside_click_untouched (path : list node) :
  closest "js-like" path = false → closest "js-comment-like" path = false →
  dispatch path
    = (no_flags,
       calls true (imap pair path) ++ calls false (reverse (imap pair path))).
Proof.
  intros Hlike Hcomment. unfold dispatch.
  rewrite phase_outside by done. simpl.
  by rewrite phase_outside.
Qed.

Lemma outside_click_untouched_witness :
  dispatch (take 5 (card_page Script000))
  = (no_flags, [(1, LikeListener Script000); (4, PageHandler "card.onclick")]).
Proof.
  by rewrite (outside_click_untouched (take 5 (card_page Script000))
                eq_refl eq_refl).
Defined.

Lemma invoke_stopped (c : bool) (path : list node) (i : nat)
    (ls : list listener) (f : flags) (t : trace) :
  stop_immediate f = true → invoke c path i ls f t = (f, t).
Proof. intros Himm. destruct ls; simpl; by rewrite ?Himm. Qed.

Lemma invoke_app (c : bool) (path : list node) (i : nat)
    (ls ls' : list listener) (f : flags) (t : trace) :
  invoke c path i (ls ++ ls') f t
    = invoke c path i ls' (invoke c path i ls f t).1 (invoke c path i ls f t).2.
Proof.
  revert f t. induction ls as [|l ls IH]; intros f t; simpl; [done |].
  destruct (stop_immediate f) eqn:Himm; simpl; [by rewrite invoke_stopped |].
  destruct (eqb (capture l) c); apply IH.
Qed.

(** X17: for a click inside a like button, the second revision of
    like.js also stops the listeners registered after its own on the
    same node: whatever is registered there afterwards is never
    called. *)
Theorem later_listeners_not_called (path : list node) (i : nat)
    (before after : list listener) (f : flags) (t : trace) :
  closest "js-like" path = true →
  invoke true path i (before ++ registration Script002 :: after) f t
    = invoke true path i (before ++ [registration Script002]) f t.
Proof.
  intros Hin.
  change (registration Script002 :: after)
    with ([registration Script002] ++ after).
  rewrite app_assoc, (invoke_app _ _ _ (before ++ [registration Script002])).
  rewrite invoke_stopped; [by destruct (invoke _ _ _ _ _ _) |].
  rewrite invoke_app.
  destruct (invoke true path i before f t) as [f1 t1]. simpl.
  destruct (stop_immediate f1) eqn:Himm; [exact Himm |].
  simpl. by rewrite Hin.
Qed.

Lemma later_listeners_not_called_witness :
  invoke true (card_page Script002) 1
    [registration Script002;
     {| capture := true; run_callback := PageHandler "analytics" |}]
    no_flags []
  = ({| stop_propagation := true; stop_immediate := true; canceled := true |},
     [(1, LikeListener Script002)]).
Proof.
  exact (eq_trans
           (later_listeners_not_called (card_page Script002) 1 []
              [{| capture := true; run_callback := PageHandler "analytics" |}]
              no_flags [] eq_refl)
           eq_refl).
Defined.

Lemma capturing_listener_shields_witness :
  canceled (dispatch (card_page Script002)).1 = true ∧
  ∀ i, (1 < i)%nat → ¬ reached i (dispatch (card_page Script002)).2.
Proof.
  apply (capturing_listener_shields Script002 (card_page Script002) 1
           {| node_classList := [];
              listeners := [registration Script002] |});
    [discriminate | reflexivity | apply list_elem_of_here | reflexivity].
Defined.

End DispatchMore.

(* ===================================================================== *)
(** * ranking.js: responses that are not a list of printable entries *)
(* ===================================================================== *)

Section RankingMore.
Import Ranking.

Lemma render_item_Some `{HtmlParser} (i : nat) (item : jsval) :
  renderable item = true → is_Some (render_item i item).
Proof.
  unfold renderable, render_item.
  destruct (get_prop item "username") as [u|]; [| done].
  destruct (get_prop item "car_name") as [c|]; [| done].
  destruct (get_prop item "likes") as [l|]; [| done]. simpl.
  destruct (js_String_cases u) as [(su & -> & ->)|[-> ->]]; [| done].
  destruct (js_String_cases c) as [(sc & -> & ->)|[-> ->]]; [| done].
  destruct (js_String_cases l) as [(sl & -> & ->)|[-> ->]]; [| done].
  simpl. by eexists.
Qed.

Lemma render_item_None `{HtmlParser} (i : nat) (item : jsval) :
  renderable item = false → render_item i item = None.
Proof.
  unfold renderable, render_item.
  destruct (get_prop item "username") as [u|]; [| done].
  destruct (get_prop item "car_name") as [c|];
    [| intros _; simpl; destruct (js_String u); reflexivity].
  destruct (get_prop item "likes") as [l|];
    [| intros _; simpl; destruct (js_String u); simpl;
       [destruct (js_String c) |]; reflexivity]. simpl.
  destruct (js_String_cases u) as [(su & -> & ->)|[-> ->]]; [| done].
  destruct (js_String_cases c) as [(sc & -> & ->)|[-> ->]]; [| done].
  destruct (js_String_cases l) as [(sl & -> & ->)|[-> ->]]; done.
Qed.

(** The loop runs to its end exactly when every item can be rendered,
    and then it has appended one item for each. *)
Lemma forEach_returns `{HtmlParser} (items : list jsval) (k : nat)
    (children : list li) :
  (forEach k items children).2 = forallb renderable items.
Proof.
  revert k children. induction items as [|item items IH]; intros k children;
    simpl; [done |].
  destruct (renderable item) eqn:Hitem; simpl.
  - destruct (render_item_Some k item Hitem) as [e ->]. apply IH.
  - by rewrite render_item_None.
Qed.

Lemma forEach_length `{HtmlParser} (items : list jsval) (k : nat)
    (children : list li) :
  (forEach k items children).2 = true →
  length (forEach k items children).1 = (length children + length items)%nat.
Proof.
  revert k children. induction items as [|item items IH]; intros k children;
    simpl; [by rewrite Nat.add_0_r |].
  destruct (render_item k item); [| done].
  intros Hrun. rewrite (IH _ _ Hrun), length_app. simpl. lia.
Qed.

Lemma forEach_app `{HtmlParser} (a b : list jsval) (k : nat)
    (children : list li) :
  forEach k (a ++ b) children =
    if (forEach k a children).2
    then forEach (k + length a) b (forEach k a children).1
    else forEach k a children.
Proof.
  revert k children. induction a as [|item a IH]; intros k children; simpl.
  - by rewrite Nat.add_0_r.
  - destruct (render_item k item); [| done].
    rewrite IH. by rewrite Nat.add_succ_comm.
Qed.

(** X18: the loader returns normally exactly when the request for the
    ranking of the selected period is answered by a body that parses to
    an array each of whose entries can be rendered: the entry is not
    [null], and its [username], [car_name] and [likes] have a string
    form.  A failed request, an unparsable body, a body that is not an
    array and an array with an entry that cannot be rendered all make
    it raise. *)
Theorem loadRanking_returns_iff `{HtmlParser} (fetch : string → fetch_outcome)
    (pg : ranking_page) :
  (loadRanking fetch pg).2 = true ↔
  ∃ status items,
    fetch ("/ranking?period=" +:+ period_value pg)
      = Response status (Some (JArr items)) ∧
    forallb renderable items = true.
Proof.
  unfold loadRanking.
  destruct (fetch ("/ranking?period=" +:+ period_value pg))
    as [|status [data|]] eqn:Hfetch; simpl;
    try (split; [done | by intros (? & ? & [=] & _)]).
  destruct data as [| | | | |items|];
    try (split; [done | by intros (? & ? & [=] & _)]).
  pose proof (forEach_returns items 0 []) as Hrun.
  destruct (forEach 0 items []) as [children returned]. simpl in *.
  rewrite Hrun. split; [by eauto |].
  by intros (? & ? & [= _ <-] & ?).
Qed.

Lemma loadRanking_returns_iff_witness :
  (loadRanking (H := entry_parser) (week_server sample_ranking) week_page).2
  = true ∧
  (loadRanking (H := entry_parser) (week_server [odd_entry]) week_page).2
  ≠ true.
Proof.
  split.
  - apply (proj2 (loadRanking_returns_iff (H := entry_parser)
                    (week_server sample_ranking) week_page)).
    exists 200%Z, sample_ranking. split; reflexivity.
  - intros Hrun.
    apply (proj1 (loadRanking_returns_iff (H := entry_parser)
                    (week_server [odd_entry]) week_page)) in Hrun
      as (status & items & [= _ <-] & Hall).
    discriminate Hall.
Defined.

(** X19: an entry that cannot be rendered stops the rendering where it
    stands: the old list is gone, the entries before it are rendered
    exactly as they would be on their own, nothing after it is
    rendered, and the loader raises. *)
Theorem bad_entry_stops_rendering `{HtmlParser} (pg : ranking_page)
    (status : Z) (good rest : list jsval) (bad : jsval) :
  forallb renderable good = true → renderable bad = false →
  ∃ rendered,
    (loadRanking (λ _, Response status (Some (JArr good))) pg).1.1
      = {| period_value := period_value pg; ranking_list := rendered |} ∧
    (loadRanking (λ _, Response status (Some (JArr good))) pg).2 = true ∧
    (loadRanking
       (λ _, Response status (Some (JArr (good ++ bad :: rest)))) pg).1.1
      = {| period_value := period_value pg; ranking_list := rendered |} ∧
    (loadRanking
       (λ _, Response status (Some (JArr (good ++ bad :: rest)))) pg).2
      = false ∧
    length rendered = length good.
Proof.
  intros Hgood Hbad. unfold loadRanking. simpl.
  pose proof (forEach_returns good 0 []) as Hrun. rewrite Hgood in Hrun.
  pose proof (forEach_length good 0 [] Hrun) as Hlen.
  rewrite forEach_app, Hrun. simpl.
  rewrite (render_item_None _ bad Hbad).
  destruct (forEach 0 good []) as [rendered returned]. simpl in *.
  exists rendered. by subst.
Qed.

Lemma bad_entry_stops_rendering_witness :
  ∃ rendered,
    (loadRanking (H := entry_parser)
       (λ _, Response 200 (Some (JArr sample_ranking))) week_page).1.1
      = {| period_value := "week"; ranking_list := rendered |} ∧
    (loadRanking (H := entry_parser)
       (λ _, Response 200 (Some (JArr sample_ranking))) week_page).2 = true ∧
    (loadRanking (H := entry_parser)
       (λ _, Response 200
               (Some (JArr (sample_ranking ++ odd_entry :: sample_ranking))))
       week_page).1.1
      = {| period_value := "week"; ranking_list := rendered |} ∧
    (loadRanking (H := entry_parser)
       (λ _, Response 200
               (Some (JArr (sample_ranking ++ odd_entry :: sample_ranking))))
       week_page).2 = false ∧
    length rendered = 2.
Proof.
  exact (bad_entry_stops_rendering (H := entry_parser) week_page 200
           sample_ranking sample_ranking odd_entry eq_refl eq_refl).
Defined.

End RankingMore.

(* ===================================================================== *)
(** * modal.js: sequences of clicks and keys *)
(* ===================================================================== *)

Section ModalMore.
Import Modal.

(** The source the click listener passes to [openModal]. *)
Lemma resolved_source (img : image) :
  js_or (of_attr (img_data_full img)) (JStr (img_src img))
    = JStr (source_if_nonempty img).
Proof.
  unfold js_or, source_if_nonempty.
  destruct (img_data_full img) as [full|]; [| done].
  change (of_attr (Some full)) with (JStr full).
  rewrite truthy_JStr. destruct (decide (full = "")) as [->|Hne]; [done |].
  by rewrite bool_decide_eq_true_2.
Qed.

Lemma on_click_image (img : image) (c : bool) (m : state) :
  on_click {| closest_post_image := Some img; closest_data_close := c |} m
    = if decide (source_if_nonempty img = "") then m
      else {| modal_classList := classList_add "open" (modal_classList m);
              modal_aria_hidden := Some "false";
              modalImg_src := source_if_nonempty img;
              body_overflow := "hidden" |}.
Proof.
  unfold on_click. simpl. rewrite resolved_source.
  unfold openModal. rewrite truthy_JStr.
  destruct (decide (source_if_nonempty img = "")) as [->|Hne]; [done |].
  by rewrite bool_decide_eq_true_2.
Qed.

Lemma modal_step_coherent (m : state) (e : modal_event) :
  modal_coherent m → modal_coherent (modal_step m e).
Proof.
  intros Hm. destruct e as [[[img|] c]|key]; simpl.
  - rewrite on_click_image.
    destruct (decide (source_if_nonempty img = "")); [done |].
    left. unfold is_open; simpl. by rewrite contains_add_same.
  - unfold on_click; simpl. destruct c; [| done].
    right. apply closeModal_hidden.
  - unfold on_keydown. destruct (_ && _); [| done].
    right. apply closeModal_hidden.
Qed.

(** X20: through any sequence of clicks and key presses the four things
    the script writes agree: either the overlay has the class [open],
    [aria-hidden] is "false", the image has a source and the page scroll
    is locked, or the overlay is not open, [aria-hidden] is "true", the
    source is empty and the scroll lock is lifted. *)
Theorem modal_stays_coherent (m : state) (es : list modal_event) :
  modal_coherent m → modal_coherent (modal_run m es).
Proof.
  revert m. induction es as [|e es IH]; intros m Hm; [exact Hm |].
  simpl. by apply IH, modal_step_coherent.
Qed.

Lemma closed_modal_coherent : modal_coherent closed_modal.
Proof. right. by repeat split. Defined.

Lemma modal_stays_coherent_witness :
  modal_coherent
    (modal_run closed_modal
       [ModalClick {| closest_post_image :=
                        Some {| img_data_full := None; img_src := "/img/9.jpg" |};
                      closest_data_close := false |};
        ModalKey "Enter"; ModalKey "Escape"; ModalKey "Escape"]).
Proof.
  apply (modal_stays_coherent closed_modal). apply closed_modal_coherent.
Defined.

(** X21: opening and closing is a round trip: from a modal in its closed
    state, a click on an image followed by Escape, or by a click on a
    close control, gives back exactly the state before the click. *)
Theorem modal_open_close_round_trip (m : state) (img : image) (c : bool) :
  hidden m →
  let opened := on_click {| closest_post_image := Some img;
                            closest_data_close := c |} m in
  on_keydown "Escape" opened = m ∧
  on_click {| closest_post_image := None; closest_data_close := true |} opened
    = m.
Proof.
  intros (Hclosed & Haria & Hsrc & Hflow). simpl.
  assert (Hm : closeModal m = m).
  { unfold closeModal. unfold is_open, classList_contains in Hclosed.
    apply bool_decide_eq_false in Hclosed.
    assert (classList_remove "open" (modal_classList m) = modal_classList m)
      as ->.
    { unfold classList_remove. induction (modal_classList m) as [|x l IH];
        [done |].
      rewrite filter_cons_True by set_solver. f_equal. apply IH. set_solver. }
    destruct m; simpl in *. by subst. }
  rewrite on_click_image.
  destruct (decide (source_if_nonempty img = "")).
  - unfold on_keydown, on_click. rewrite Hclosed. simpl. by rewrite Hm.
  - assert (Hback :
      closeModal {| modal_classList := classList_add "open" (modal_classList m);
                    modal_aria_hidden := Some "false";
                    modalImg_src := source_if_nonempty img;
                    body_overflow := "hidden" |} = m).
    { unfold closeModal; simpl. rewrite remove_add_absent by done.
      destruct m; simpl in *. by subst. }
    unfold on_keydown, on_click, is_open; simpl.
    by rewrite contains_add_same, Hback.
Qed.

Lemma modal_open_close_round_trip_witness :
  on_keydown "Escape"
    (on_click {| closest_post_image :=
                   Some {| img_data_full := Some "/img/full/9.jpg";
                           img_src := "/img/9.jpg" |};
                 closest_data_close := false |} closed_modal)
  = closed_modal.
Proof.
  apply (modal_open_close_round_trip closed_modal). by repeat split.
Defined.

(** X22: a click on another image while the modal is open swaps the
    image: the source becomes the one the click resolves to, and the
    class list of the overlay stays as it is, without a second
    [open]. *)
Theorem modal_reopen_swaps_image (m : state) (img : image) (c : bool) :
  is_open m = true → source_if_nonempty img ≠ "" →
  on_click {| closest_post_image := Some img; closest_data_close := c |} m
    = {| modal_classList := modal_classList m;
         modal_aria_hidden := Some "false";
         modalImg_src := source_if_nonempty img;
         body_overflow := "hidden" |}.
Proof.
  intros Hopen Hsrc. rewrite on_click_image, decide_False by done.
  unfold classList_add. unfold is_open in Hopen. by rewrite Hopen.
Qed.

Lemma modal_reopen_swaps_image_witness :
  on_click {| closest_post_image :=
                Some {| img_data_full := None; img_src := "/img/3.jpg" |};
              closest_data_close := false |} open_modal
  = {| modal_classList := ["modal"; "open"];
       modal_aria_hidden := Some "false";
       modalImg_src := "/img/3.jpg"; body_overflow := "hidden" |}.
Proof.
  apply (modal_reopen_swaps_image open_modal); [reflexivity | discriminate].
Defined.

End ModalMore.

(* ===================================================================== *)
(** * Like scripts: the liked state as one unit *)
(* ===================================================================== *)

(** X23: the three scripts write a like state in different orders.
    Where the first revision of like.js completes the update, the
    second revision leaves the same element, and so does the posts +
    comments script when [likes] is defined or the button has no count
    child.  Where the first revision raises, on a count without a
    string form, it has written nothing, while the other two raise
    after they have written [dataset.liked], the class, [aria-pressed]
    and the icon. *)
Theorem like_state_routines_agree (liked likes : jsval) (b : element) :
  match Part000.show liked likes b with
  | Some e =>
      Part002.update_button liked likes b = (e, true) ∧
      (is_defined likes = true ∨ like_count b = None →
       Part001.setLikeBtnState liked likes b = (e, true))
  | None =>
      Part002.update_button liked likes b
        = (half_updated (truthy liked) b, false) ∧
      Part001.setLikeBtnState liked likes b
        = (half_updated (truthy liked) b, false)
  end.
Proof.
  assert (Hdef : js_String likes = None → is_defined likes = true)
    by (by destruct likes).
  unfold Part000.show, Part002.update_button, Part001.setLikeBtnState.
  destruct b as [cl post comment dl loading dis aria icon [count|]]; simpl.
  - destruct (js_String likes) as [s|]; simpl.
    + split; [reflexivity |]. intros [->|[=]]. reflexivity.
    + rewrite Hdef by done. split; reflexivity.
  - split; [reflexivity |]. intros _. reflexivity.
Qed.

Lemma like_state_routines_agree_witness :
  Part001.setLikeBtnState (JBool true) (JNum 4 eq_refl) like_button
  = ({| classList := ["js-like"; "active"]; data_post_id := Some "42";
        data_comment_id := None; data_liked := Some "1";
        data_loading := None; disabled := false;
        aria_pressed := Some "true"; like_icon := Some "❤️";
        like_count := Some "4" |}, true).
Proof.
  exact (proj2 (like_state_routines_agree (JBool true) (JNum 4 eq_refl)
                  like_button) (or_introl eq_refl)).
Defined.

Lemma display_mark_same (v : script) (b : element) :
  display (mark v b) = display b.
Proof.
  destruct v; unfold display; simpl; try reflexivity;
    by rewrite contains_add_other.
Qed.

Lemma coherent_display (a b : element) :
  display a = display b → like_coherent a → like_coherent b.
Proof.
  unfold display, like_coherent. by intros [= -> -> -> -> _].
Qed.

Lemma coherent_half_updated (liked : bool) (b : element) :
  like_coherent (half_updated liked b).
Proof.
  unfold like_coherent; simpl. rewrite contains_toggle_same.
  split_and!; [done.. |]. destruct (like_icon b); by eauto.
Qed.

Lemma coherent_written (b b' : element) :
  written b b' → like_coherent b → like_coherent b'.
Proof.
  induction 1 as [|liked b b' _ _|count b b' _ IH]; intros Hb;
    [done | apply coherent_half_updated |].
  exact (IH Hb).
Qed.

Lemma coherent_settle `{SelectorEngine} (v : script) (rq : request)
    (p : page) (o : fetch_outcome) :
  Forall like_coherent p → Forall like_coherent (handler_settle v rq p o).1.
Proof.
  intros Hp. destruct (handler_settle_written v rq p o) as (p1 & -> & Hw).
  apply Forall_alter.
  - clear rq. induction Hw as [|x y p p1 Hxy _ IH]; [done |].
    apply Forall_cons in Hp as [Hx Hp].
    constructor; [by eapply coherent_written | by apply IH].
  - intros x _. apply coherent_display. symmetry. apply display_unmark.
Qed.

Lemma coherent_step `{SelectorEngine} (v : script) (s : world) (e : event) :
  Forall like_coherent (dom s) → Forall like_coherent (dom (step v s e)).
Proof.
  intros Hs.
  assert (Hbegin : ∀ e',
            Forall like_coherent (dom
              match handler_begin v e' (dom s) with
              | None => s
              | Some (p, rq) =>
                  {| dom := p; outstanding := outstanding s ++ [rq];
                     log := log s ++ [Fetch (rq_url rq)] |}
              end)).
  { intros e'. destruct (handler_begin v e' (dom s)) as [[p rq]|] eqn:Hb;
      [| done].
    apply handler_begin_inv in Hb as (b & _ & _ & _ & ->). simpl.
    apply Forall_alter; [done |]. intros x _.
    apply coherent_display. symmetry. apply display_mark_same. }
  destruct e as [btn|btn|btn|k o]; try apply Hbegin.
  simpl. destruct (outstanding s !! k) as [rq|]; [| done].
  pose proof (coherent_settle v rq (dom s) o Hs) as Hsettle.
  by destruct (handler_settle v rq (dom s) o).
Qed.

(** X24: on a page whose buttons are rendered with [dataset.liked],
    [aria-pressed] and the icon in agreement with the class [active],
    they stay in agreement on every button through any sequence of
    clicks, submits and settling requests: a script never writes one
    carrier of the liked state without the others. *)
Theorem like_state_stays_coherent `{SelectorEngine} (v : script) (s : world)
    (es : list event) :
  Forall like_coherent (dom s) → Forall like_coherent (dom (run v s es)).
Proof.
  revert s. induction es as [|e es IH]; intros s Hs; [exact Hs |].
  simpl. by apply IH, coherent_step.
Qed.

Lemma fresh_world_coherent : Forall like_coherent (dom fresh_world).
Proof. repeat constructor; by right. Defined.

Lemma like_state_stays_coherent_witness :
  Forall like_coherent
    (dom (run (H := strict_engine) Script002 fresh_world
            [ClickLike 0; Settle 0 (Response 200 (Some liked_payload));
             ClickLike 1; Settle 0 NetworkError])).
Proof.
  apply (like_state_stays_coherent (H := strict_engine) Script002 fresh_world).
  apply fresh_world_coherent.
Defined.
